(** * generador_auto.py: metadata extraction, page generation, deployment
      and configuration loading, embedded in Rocq.

    The development follows [src/generador_auto.py]:
    - [MetadataExtractor.extract]  (lines 23-65)
    - [generate_html]              (lines 68-152)
    - [git_push_to_github]         (lines 177-212)
    - [load_config]                (lines 266-274)

    Python [str] values are sequences of Unicode code points; they are
    modelled as [list N].  Literals are written as UTF-8 Rocq strings and
    decoded by [py]. *)

From Stdlib Require Import List NArith ZArith Bool Lia.
From Stdlib Require String Ascii.
Import String.StringSyntax.
Delimit Scope string_scope with string.
Import ListNotations.

Set Implicit Arguments.
Set Warnings "-register-all".

Local Open Scope N_scope.

(* ================================================================== *)
(** ** Python strings *)

Module Str.

Definition str := list N.

Definition eqb (a b : str) : bool :=
  if list_eq_dec N.eq_dec a b then true else false.

(** UTF-8 decoding of a Rocq string literal (well-formed input only:
    it is applied to the literals of this file). *)
Definition cont (a : Ascii.ascii) : N := N.land (Ascii.N_of_ascii a) 63.

Fixpoint decode (s : String.string) : str :=
  match s with
  | String.EmptyString => []
  | String.String a s1 =>
    let n := Ascii.N_of_ascii a in
    if n <? 128 then n :: decode s1
    else if n <? 224 then
      match s1 with
      | String.String b s2 => (N.land n 31 * 64 + cont b) :: decode s2
      | _ => [n]
      end
    else if n <? 240 then
      match s1 with
      | String.String b (String.String c s3) =>
          (N.land n 15 * 4096 + cont b * 64 + cont c) :: decode s3
      | _ => [n]
      end
    else
      match s1 with
      | String.String b (String.String c (String.String d s4)) =>
          (N.land n 7 * 262144 + cont b * 4096 + cont c * 64 + cont d)
            :: decode s4
      | _ => [n]
      end
  end.

Arguments decode s%_string.

(** [bool(s)] for a string: the empty string is falsy. *)
Definition truthy (s : str) : bool :=
  match s with [] => false | _ => true end.

(** [str.isspace] on one code point (the set CPython's
    [_PyUnicode_IsWhitespace] accepts). *)
Definition isspace (c : N) : bool :=
  ((9 <=? c) && (c <=? 13)) || ((28 <=? c) && (c <=? 32))
  || (c =? 133) || (c =? 160) || (c =? 5760)
  || ((8192 <=? c) && (c <=? 8202))
  || (c =? 8232) || (c =? 8233) || (c =? 8239) || (c =? 8287)
  || (c =? 12288).

Fixpoint lstrip_by (p : N -> bool) (s : str) : str :=
  match s with
  | c :: s' => if p c then lstrip_by p s' else s
  | [] => []
  end.

Definition rstrip_by (p : N -> bool) (s : str) : str :=
  rev (lstrip_by p (rev s)).

(** [s.strip()] *)
Definition strip (s : str) : str := rstrip_by isspace (lstrip_by isspace s).

(** [s.startswith(p)] *)
Fixpoint startswith (p s : str) : bool :=
  match p, s with
  | [], _ => true
  | a :: p', b :: s' => (a =? b) && startswith p' s'
  | _ :: _, [] => false
  end.

(** [s.replace(old, new)] for a non-empty [old]: occurrences are found
    left to right and do not overlap.  [skip] counts the characters of
    a matched occurrence that remain to be dropped. *)
Fixpoint replace_from (skip : nat) (old new s : str) : str :=
  match s with
  | [] => []
  | c :: s' =>
    match skip with
    | S k => replace_from k old new s'
    | O =>
      if startswith old s
      then new ++ replace_from (length old - 1)%nat old new s'
      else c :: replace_from 0 old new s'
    end
  end.

Definition replace (s old new : str) : str := replace_from 0 old new s.

(** [c in s] *)
Definition contains (c : N) (s : str) : bool := existsb (N.eqb c) s.

(** decimal rendering of a non-negative integer, as [str(n)] gives *)
Fixpoint digits (fuel : nat) (n : N) (acc : str) : str :=
  match fuel with
  | O => acc
  | S f =>
    let acc' := (48 + n mod 10) :: acc in
    if n / 10 =? 0 then acc' else digits f (n / 10) acc'
  end.

Definition of_N (n : N) : str := digits (S (N.to_nat (N.log2 n))) n [].

Definition of_Z (z : Z) : str :=
  if (z <? 0)%Z then 45 :: of_N (Z.to_N (- z)) else of_N (Z.to_N z).

End Str.

Import Str.
Abbreviation str := Str.str.
Abbreviation py := Str.decode.

(* ================================================================== *)
(** ** Exceptions and the error monad *)

Inductive exc_class : Type :=
| Exception            (* the builtin base class, raised by [extract] *)
| ConnectionError      (* requests.exceptions.ConnectionError *)
| Timeout              (* requests.exceptions.Timeout *)
| HTTPError            (* requests.exceptions.HTTPError *)
| AttributeError
| KeyError
| ValueError
| OSError
| JSONDecodeError
| CalledProcessError   (* subprocess.CalledProcessError *)
| FileNotFoundError.

(** An exception object: its class, the text [str(e)] gives, and the
    exception that was being handled when it was raised ([__context__]). *)
Inductive pyexc : Type :=
| PyExc (cls : exc_class) (msg : str) (context : option pyexc).

Definition exc_cls (e : pyexc) : exc_class := let (c, _, _) := e in c.
Definition exc_str (e : pyexc) : str := let (_, m, _) := e in m.
Definition exc_context (e : pyexc) : option pyexc := let (_, _, c) := e in c.

Definition exc_class_eqb (a b : exc_class) : bool :=
  match a, b with
  | Exception, Exception | ConnectionError, ConnectionError
  | Timeout, Timeout | HTTPError, HTTPError
  | AttributeError, AttributeError | KeyError, KeyError
  | ValueError, ValueError | OSError, OSError
  | JSONDecodeError, JSONDecodeError
  | CalledProcessError, CalledProcessError
  | FileNotFoundError, FileNotFoundError => true
  | _, _ => false
  end.

Inductive result (A : Type) : Type :=
| Ok (a : A)
| Raise (e : pyexc).
Arguments Raise {A} e.

Definition bind {A B} (m : result A) (k : A -> result B) : result B :=
  match m with
  | Ok a => k a
  | Raise e => Raise e
  end.

(** [try: body  except Exception as e: handler(e)] *)
Definition try_except {A} (body : result A) (handler : pyexc -> result A)
  : result A :=
  match body with
  | Ok a => Ok a
  | Raise e => handler e
  end.

Declare Scope py_scope.
Delimit Scope py_scope with py.
Notation "x <- m ;; k" := (bind m (fun x => k))
  (at level 61, m at next level, right associativity) : py_scope.
Notation "m ;;; k" := (bind m (fun _ => k))
  (at level 61, right associativity) : py_scope.
Local Open Scope py_scope.

(* ================================================================== *)
(** ** The parsed document (BeautifulSoup with html.parser) *)

(** The tree BeautifulSoup builds: a [Tag] has a (lower-cased) name, an
    attribute dictionary and children; text, comments and the like are
    [NavigableString]s.  None of the attributes [extract] reads
    (property, name, content, src) is multi-valued, so attribute values
    are plain strings; the parser turns a value-less attribute into the
    empty string and keeps one value per key. *)
Inductive PageElement : Type :=
| Tag (name : str) (attrs : list (str * str)) (contents : list PageElement)
| NavigableString (s : str).

(** The [BeautifulSoup] object: the top-level contents of the document. *)
Definition BeautifulSoup := list PageElement.

Fixpoint lookup (key : str) (d : list (str * str)) : option str :=
  match d with
  | [] => None
  | (k, v) :: d' => if Str.eqb k key then Some v else lookup key d'
  end.

Definition tag_name (e : PageElement) : option str :=
  match e with Tag n _ _ => Some n | NavigableString _ => None end.

Definition tag_attrs (e : PageElement) : list (str * str) :=
  match e with Tag _ a _ => a | NavigableString _ => [] end.

(** [tag.get(key)]: [None] when the attribute is absent *)
Definition get (t : PageElement) (key : str) : option str :=
  lookup key (tag_attrs t).

(** [tag.get(key, default)] *)
Definition get_default (t : PageElement) (key default : str) : str :=
  match get t key with Some v => v | None => default end.

(** [tag[key]]: raises [KeyError] when the attribute is absent *)
Definition getitem (t : PageElement) (key : str) : result str :=
  match get t key with
  | Some v => Ok v
  | None => Raise (PyExc KeyError (py "'" ++ key ++ py "'") None)
  end.

(** [PageElement.descendants]: all nodes below, in document order *)
Fixpoint descendants (e : PageElement) : list PageElement :=
  match e with
  | Tag _ _ cs => flat_map (fun c => c :: descendants c) cs
  | NavigableString _ => []
  end.

Definition soup_descendants (soup : BeautifulSoup) : list PageElement :=
  flat_map (fun c => c :: descendants c) soup.

(** A tag matches [find(name, attrs)] when its name is [name] and every
    requested attribute is present with exactly the requested value. *)
Definition matches (name : str) (attrs : list (str * str)) (e : PageElement)
  : bool :=
  match e with
  | Tag n d _ =>
      Str.eqb n name
      && forallb (fun kv => match lookup (fst kv) d with
                            | Some v => Str.eqb v (snd kv)
                            | None => false
                            end) attrs
  | NavigableString _ => false
  end.

(** [soup.find(name, attrs)]: the first matching tag, or [None] *)
Definition find (soup : BeautifulSoup) (name : str) (attrs : list (str * str))
  : option PageElement :=
  List.find (matches name attrs) (soup_descendants soup).

(** [tag.string]: the single string below the tag, [None] when the tag
    has no child or more than one *)
Fixpoint string_of (e : PageElement) : option str :=
  match e with
  | NavigableString s => Some s
  | Tag _ _ [c] => string_of c
  | Tag _ _ _ => None
  end.

(** [soup.title] is [soup.find("title")] *)
Definition soup_title (soup : BeautifulSoup) : option PageElement :=
  find soup (py "title") [].

(* ================================================================== *)
(** ** The HTTP request (requests) and URL joining (urllib.parse) *)

(** What [extract] uses of a [requests.Response].  [resp_url] is
    [r.url], the URL of the page that answered: the requested URL, or
    the last one of a chain of redirects (line 26 follows them).
    [parsed_text] is what [BeautifulSoup(r.text, 'html.parser')] makes
    of the body: the tree it builds, or the exception it raises when
    html.parser rejects the markup. *)
Record Response : Type := mkResponse {
  status_code : Z;
  reason : str;
  resp_url : str;
  parsed_text : result BeautifulSoup
}.

(** The document of a response whose body the parser accepts; a
    rejected body has no document, and [soup] is empty for it. *)
Definition soup (r : Response) : BeautifulSoup :=
  match parsed_text r with
  | Ok doc => doc
  | Raise _ => []
  end.

(** The network as [requests.get(url, headers=HEADERS, timeout=10)] sees
    it: a response, or an exception (connection error, timeout, ...). *)
Definition Network := str -> result Response.

(** [Response.raise_for_status]: an [HTTPError] for a 4xx or 5xx status,
    nothing for any other status. *)
Definition raise_for_status (r : Response) : result unit :=
  let code := status_code r in
  if ((400 <=? code) && (code <? 500))%Z then
    Raise (PyExc HTTPError
             (Str.of_Z code ++ py " Client Error: " ++ reason r
                ++ py " for url: " ++ resp_url r) None)
  else if ((500 <=? code) && (code <? 600))%Z then
    Raise (PyExc HTTPError
             (Str.of_Z code ++ py " Server Error: " ++ reason r
                ++ py " for url: " ++ resp_url r) None)
  else Ok tt.

(** [urllib.parse.urljoin(base, url)]: the library function is taken as
    an interface; it returns the joined URL or raises [ValueError]. *)
Class Urllib : Type := { urljoin : str -> str -> result str }.

(* ================================================================== *)
(** ** MetadataExtractor.extract *)

Definition opt_truthy (o : option str) : bool :=
  match o with Some s => Str.truthy s | None => false end.

Definition default_title : str := py "Sin título".
Definition default_desc : str := py "Sin descripción".

Definition none_has_no_strip : pyexc :=
  PyExc AttributeError (py "'NoneType' object has no attribute 'strip'") None.

(** [x.strip()] where [x] may be [None] *)
Definition strip_method (x : option str) : result str :=
  match x with
  | Some s => Ok (Str.strip s)
  | None => Raise none_has_no_strip
  end.

Section Extractor.

Context {urllib : Urllib}.
Variable net : Network.

(** Lines 30-38 *)
Definition extract_title (soup : BeautifulSoup) : result str :=
  let title : option str := None in
  let og_title := find soup (py "meta") [(py "property", py "og:title")] in
  let title :=
    match og_title with
    | Some t => Some (Str.strip (get_default t (py "content") []))
    | None => title
    end in
  title <-
    (if negb (opt_truthy title) then
       match soup_title soup with
       | Some t => s <- strip_method (string_of t) ;; Ok (Some s)
       | None => Ok title
       end
     else Ok title) ;;
  Ok (match title with
      | Some s => if Str.truthy s then s else default_title
      | None => default_title
      end).

(** Lines 40-50 *)
Definition extract_desc (soup : BeautifulSoup) : str :=
  let desc : option str := None in
  let og_desc :=
    find soup (py "meta") [(py "property", py "og:description")] in
  let desc :=
    match og_desc with
    | Some t => Some (Str.strip (get_default t (py "content") []))
    | None => desc
    end in
  let desc :=
    if negb (opt_truthy desc) then
      let meta_desc :=
        find soup (py "meta") [(py "name", py "description")] in
      match meta_desc with
      | Some t => Some (Str.strip (get_default t (py "content") []))
      | None => desc
      end
    else desc in
  match desc with
  | Some s => if Str.truthy s then s else default_desc
  | None => default_desc
  end.

(** Lines 52-60 *)
Definition extract_img (self_url : str) (soup : BeautifulSoup)
  : result str :=
  let img : str := [] in
  let og_img := find soup (py "meta") [(py "property", py "og:image")] in
  let img :=
    match og_img with
    | Some t => Str.strip (get_default t (py "content") [])
    | None => img
    end in
  if negb (Str.truthy img) then
    let first_img := find soup (py "img") [] in
    match first_img with
    | Some t =>
        if opt_truthy (get t (py "src")) then
          src <- getitem t (py "src") ;;
          urljoin self_url src
        else Ok img
    | None => Ok img
    end
  else Ok img.

(** The wrapper of line 65 *)
Definition wrap (e : pyexc) : pyexc :=
  PyExc Exception (py "Error extrayendo metadata: " ++ exc_str e) (Some e).

(** Lines 23-65.  The three blocks of the body are the definitions
    above, in the order the source runs them; the request, the status
    check and the parsing of the body (lines 26-28) come first, inside
    the same [try]. *)
Definition extract (self_url : str) : result (str * str * str) :=
  try_except
    (r <- net self_url ;;
     raise_for_status r ;;;
     soup <- parsed_text r ;;
     title <- extract_title soup ;;
     let desc := extract_desc soup in
     img <- extract_img self_url soup ;;
     Ok (title, desc, img))
    (fun e => Raise (wrap e)).

End Extractor.

(* ================================================================== *)
(** ** A model of urllib.parse.urljoin

    The functions below follow CPython 3.11's [urllib/parse.py]
    ([urlsplit], [urlparse], [urlunsplit], [urlunparse], [urljoin]) on
    [str] arguments.  Two validations of the authority are left out: the
    address check of a bracketed host and the NFKC check of a non-ASCII
    authority; both only turn some results into [ValueError], and both
    depend on the authority alone.  The model is used for the worked
    examples and for the absolute image URL of a result; the other
    general theorems hold for every [Urllib]. *)

Module UrllibParse.

Definition ch (s : String.string) : N := hd 0 (py s).
Arguments ch s%_string.

Definition uses_relative : list str :=
  map Str.decode
    [""; "ftp"; "http"; "gopher"; "nntp"; "imap"; "wais"; "file"; "https";
     "shttp"; "mms"; "prospero"; "rtsp"; "rtspu"; "sftp"; "svn";
     "svn+ssh"; "ws"; "wss"]%string.

Definition uses_netloc : list str :=
  map Str.decode
    [""; "ftp"; "http"; "gopher"; "nntp"; "telnet"; "imap"; "wais"; "file";
     "mms"; "https"; "shttp"; "snews"; "prospero"; "rtsp"; "rtspu";
     "rsync"; "svn"; "svn+ssh"; "sftp"; "nfs"; "git"; "git+ssh"; "ws";
     "wss"]%string.

Definition uses_params : list str :=
  map Str.decode
    [""; "ftp"; "hdl"; "prospero"; "http"; "imap"; "https"; "shttp";
     "rtsp"; "rtspu"; "sip"; "sips"; "mms"; "sftp"; "tel"]%string.

Definition mem (s : str) (l : list str) : bool := existsb (Str.eqb s) l.

Definition is_upper (c : N) : bool := (65 <=? c) && (c <=? 90).
Definition is_lower (c : N) : bool := (97 <=? c) && (c <=? 122).
Definition is_digit (c : N) : bool := (48 <=? c) && (c <=? 57).

Definition scheme_char (c : N) : bool :=
  is_lower c || is_upper c || is_digit c
  || (c =? ch "+") || (c =? ch "-") || (c =? ch ".").

Definition lower (s : str) : str :=
  map (fun c => if is_upper c then c + 32 else c) s.

Definition c0_or_space (c : N) : bool := c <=? 32.
Definition unsafe (c : N) : bool := (c =? 9) || (c =? 13) || (c =? 10).

(** [s.partition(c)]: [None] when [c] does not occur, otherwise the
    text before and after its first occurrence *)
Fixpoint partition (c : N) (s : str) : option (str * str) :=
  match s with
  | [] => None
  | x :: s' =>
    if x =? c then Some ([], s')
    else match partition c s' with
         | Some (a, b) => Some (x :: a, b)
         | None => None
         end
  end.

(** [s.split(c)] *)
Fixpoint split (c : N) (s : str) : list str :=
  match s with
  | [] => [[]]
  | x :: s' =>
    match split c s' with
    | seg :: segs => if x =? c then [] :: seg :: segs else (x :: seg) :: segs
    | [] => [[x]]
    end
  end.

(** [sep.join(l)] *)
Fixpoint join (sep : str) (l : list str) : str :=
  match l with
  | [] => []
  | [a] => a
  | a :: l' => a ++ sep ++ join sep l'
  end.

(** [_splitnetloc(url, 2)] applied to the text after the two slashes *)
Fixpoint splitnetloc (s : str) : str * str :=
  match s with
  | [] => ([], [])
  | x :: s' =>
    if (x =? ch "/") || (x =? ch "?") || (x =? ch "#") then ([], s)
    else let (a, b) := splitnetloc s' in (x :: a, b)
  end.

Definition invalid_ipv6 : pyexc :=
  PyExc ValueError (py "Invalid IPv6 URL") None.

Record SplitResult : Type := mkSplit {
  s_scheme : str; s_netloc : str; s_path : str;
  s_query : str; s_fragment : str
}.

Definition urlsplit (url scheme : str) : result SplitResult :=
  let url := Str.lstrip_by c0_or_space url in
  let scheme := Str.rstrip_by c0_or_space (Str.lstrip_by c0_or_space scheme) in
  let url := filter (fun c => negb (unsafe c)) url in
  let scheme := filter (fun c => negb (unsafe c)) scheme in
  let '(scheme, url) :=
    match partition (ch ":") url with
    | Some (c :: pre, post) =>
        if (is_lower c || is_upper c) && forallb scheme_char (c :: pre)
        then (lower (c :: pre), post)
        else (scheme, url)
    | _ => (scheme, url)
    end in
  r <- (if Str.startswith (py "//") url then
          let (netloc, rest) := splitnetloc (skipn 2 url) in
          let ob := Str.contains (ch "[") netloc in
          let cb := Str.contains (ch "]") netloc in
          if (ob && negb cb) || (cb && negb ob) then Raise invalid_ipv6
          else Ok (netloc, rest)
        else Ok ([], url)) ;;
  let '(netloc, url) := r in
  let '(url, fragment) :=
    match partition (ch "#") url with
    | Some (a, b) => (a, b)
    | None => (url, [])
    end in
  let '(url, query) :=
    match partition (ch "?") url with
    | Some (a, b) => (a, b)
    | None => (url, [])
    end in
  Ok (mkSplit scheme netloc url query fragment).

(** [_splitparams] *)
Definition splitparams (url : str) : str * str :=
  if Str.contains (ch "/") url then
    let segs := split (ch "/") url in
    let dir := join (py "/") (removelast segs) ++ py "/" in
    match partition (ch ";") (last segs []) with
    | Some (a, b) => (dir ++ a, b)
    | None => (url, [])
    end
  else
    match partition (ch ";") url with
    | Some (a, b) => (a, b)
    | None => (url, [])
    end.

Record ParseResult : Type := mkParse {
  scheme : str; netloc : str; path : str;
  params : str; query : str; fragment : str
}.

Definition urlparse (url scheme : str) : result ParseResult :=
  sp <- urlsplit url scheme ;;
  let '(url, params) :=
    if mem (s_scheme sp) uses_params && Str.contains (ch ";") (s_path sp)
    then splitparams (s_path sp)
    else (s_path sp, []) in
  Ok (mkParse (s_scheme sp) (s_netloc sp) url params
        (s_query sp) (s_fragment sp)).

Definition urlunsplit (scheme netloc url query fragment : str) : str :=
  let url :=
    if Str.truthy netloc
       || (Str.truthy scheme && mem scheme uses_netloc
           && negb (Str.startswith (py "//") url))
    then
      let url :=
        if Str.truthy url && negb (Str.startswith (py "/") url)
        then py "/" ++ url else url in
      py "//" ++ netloc ++ url
    else url in
  let url := if Str.truthy scheme then scheme ++ py ":" ++ url else url in
  let url := if Str.truthy query then url ++ py "?" ++ query else url in
  if Str.truthy fragment then url ++ py "#" ++ fragment else url.

Definition urlunparse (p : ParseResult) : str :=
  let url :=
    if Str.truthy (params p) then path p ++ py ";" ++ params p
    else path p in
  urlunsplit (scheme p) (netloc p) url (query p) (fragment p).

(** The loop over [segments]; [resolved] is kept in reverse. *)
Fixpoint resolve (segments resolved : list str) : list str :=
  match segments with
  | [] => rev resolved
  | seg :: rest =>
    if Str.eqb seg (py "..") then resolve rest (tl resolved)
    else if Str.eqb seg (py ".") then resolve rest resolved
    else resolve rest (seg :: resolved)
  end.

(** [segments[1:-1] = filter(None, segments[1:-1])] *)
Definition drop_empty_middle (segments : list str) : list str :=
  match segments with
  | a :: (_ :: _) as rest =>
      a :: filter Str.truthy (removelast rest) ++ [last rest []]
  | _ => segments
  end.

Definition urljoin (base url : str) : result str :=
  if negb (Str.truthy base) then Ok url
  else if negb (Str.truthy url) then Ok base
  else
    b <- urlparse base [] ;;
    u <- urlparse url (scheme b) ;;
    if negb (Str.eqb (scheme u) (scheme b))
       || negb (mem (scheme u) uses_relative)
    then Ok url
    else if mem (scheme u) uses_netloc && Str.truthy (netloc u)
    then Ok (urlunparse u)
    else
      let netloc' :=
        if mem (scheme u) uses_netloc then netloc b else netloc u in
      if negb (Str.truthy (path u)) && negb (Str.truthy (params u)) then
        let query' :=
          if negb (Str.truthy (query u)) then query b else query u in
        Ok (urlunparse (mkParse (scheme u) netloc' (path b) (params b)
                          query' (fragment u)))
      else
        let base_parts := split (ch "/") (path b) in
        let base_parts :=
          if negb (Str.eqb (last base_parts []) [])
          then removelast base_parts else base_parts in
        let segments :=
          if Str.startswith (py "/") (path u)
          then split (ch "/") (path u)
          else drop_empty_middle (base_parts ++ split (ch "/") (path u)) in
        let resolved := resolve segments [] in
        let resolved :=
          if Str.eqb (last segments []) (py ".")
             || Str.eqb (last segments []) (py "..")
          then resolved ++ [[]] else resolved in
        let joined := join (py "/") resolved in
        Ok (urlunparse
              (mkParse (scheme u) netloc'
                 (if Str.truthy joined then joined else py "/")
                 (params u) (query u) (fragment u))).

End UrllibParse.

#[export] Instance python_urllib : Urllib :=
  {| urljoin := UrllibParse.urljoin |}.

(* ================================================================== *)
(** ** generate_html *)

Definition q : str := [34].    (* the double quote *)
Definition nl : str := [10].   (* the line feed *)

(** The f-string of lines 74-152, one row per source line, with its five
    replacement fields as arguments. *)
Definition template (visible_url redirect_url title desc img : str) : str :=
  concat
    [
     py "<!DOCTYPE html>"; nl;
     py "<html lang="; q; py "es"; q; py ">"; nl;
     py "<head>"; nl;
     py "    <meta charset="; q; py "UTF-8"; q; py ">"; nl;
     py "    <meta name="; q; py "viewport"; q; py " content="; q; py "width=device-width, initial-scale=1.0"; q; py ">"; nl;
     py "    <title>"; title; py "</title>"; nl;
     py "    <meta name="; q; py "description"; q; py " content="; q; desc; q; py ">"; nl;
     py "    "; nl;
     py "    <!-- Open Graph -->"; nl;
     py "    <meta property="; q; py "og:type"; q; py " content="; q; py "website"; q; py ">"; nl;
     py "    <meta property="; q; py "og:url"; q; py " content="; q; visible_url; q; py ">"; nl;
     py "    <meta property="; q; py "og:title"; q; py " content="; q; title; q; py ">"; nl;
     py "    <meta property="; q; py "og:description"; q; py " content="; q; desc; q; py ">"; nl;
     py "    <meta property="; q; py "og:image"; q; py " content="; q; img; q; py ">"; nl;
     py "    <meta property="; q; py "og:image:width"; q; py " content="; q; py "1200"; q; py ">"; nl;
     py "    <meta property="; q; py "og:image:height"; q; py " content="; q; py "630"; q; py ">"; nl;
     py "    "; nl;
     py "    <!-- Twitter Card -->"; nl;
     py "    <meta name="; q; py "twitter:card"; q; py " content="; q; py "summary_large_image"; q; py ">"; nl;
     py "    <meta name="; q; py "twitter:title"; q; py " content="; q; title; q; py ">"; nl;
     py "    <meta name="; q; py "twitter:description"; q; py " content="; q; desc; q; py ">"; nl;
     py "    <meta name="; q; py "twitter:image"; q; py " content="; q; img; q; py ">"; nl;
     py "    "; nl;
     py "    <!-- Redirección -->"; nl;
     py "    <meta http-equiv="; q; py "refresh"; q; py " content="; q; py "0;url="; redirect_url; q; py ">"; nl;
     py "    <script>window.location.href = "; q; redirect_url; q; py ";</script>"; nl;
     py "    "; nl;
     py "    <style>"; nl;
     py "        body {"; nl;
     py "            margin: 0;"; nl;
     py "            padding: 0;"; nl;
     py "            font-family: -apple-system, BlinkMacSystemFont, "; q; py "Segoe UI"; q; py ", Roboto, sans-serif;"; nl;
     py "            display: flex;"; nl;
     py "            align-items: center;"; nl;
     py "            justify-content: center;"; nl;
     py "            min-height: 100vh;"; nl;
     py "            background: linear-gradient(135deg, #667eea 0%, #764ba2 100%);"; nl;
     py "            color: white;"; nl;
     py "        }"; nl;
     py "        .container {"; nl;
     py "            text-align: center;"; nl;
     py "            padding: 2rem;"; nl;
     py "        }"; nl;
     py "        .spinner {"; nl;
     py "            border: 3px solid rgba(255,255,255,0.3);"; nl;
     py "            border-top: 3px solid white;"; nl;
     py "            border-radius: 50%;"; nl;
     py "            width: 50px;"; nl;
     py "            height: 50px;"; nl;
     py "            animation: spin 0.8s linear infinite;"; nl;
     py "            margin: 0 auto 1.5rem;"; nl;
     py "        }"; nl;
     py "        @keyframes spin {"; nl;
     py "            to { transform: rotate(360deg); }"; nl;
     py "        }"; nl;
     py "        h1 {"; nl;
     py "            font-size: 1.5rem;"; nl;
     py "            margin: 0 0 1rem;"; nl;
     py "            font-weight: 600;"; nl;
     py "        }"; nl;
     py "        p {"; nl;
     py "            opacity: 0.9;"; nl;
     py "            margin: 0.5rem 0;"; nl;
     py "        }"; nl;
     py "        a {"; nl;
     py "            color: white;"; nl;
     py "            text-decoration: underline;"; nl;
     py "        }"; nl;
     py "    </style>"; nl;
     py "</head>"; nl;
     py "<body>"; nl;
     py "    <div class="; q; py "container"; q; py ">"; nl;
     py "        <div class="; q; py "spinner"; q; py "></div>"; nl;
     py "        <h1>Redirigiendo...</h1>"; nl;
     py "        <p>Serás redirigido automáticamente</p>"; nl;
     py "        <p><a href="; q; redirect_url; q; py ">O haz clic aquí</a></p>"; nl;
     py "    </div>"; nl;
     py "</body>"; nl;
     py "</html>"
    ].

(** Lines 68-152 *)
Definition generate_html (visible_url redirect_url title desc img : str)
  : str :=
  let title :=
    Str.replace (Str.replace title q (py "&quot;")) (py "'") (py "&#39;") in
  let desc :=
    Str.replace (Str.replace desc q (py "&quot;")) (py "'") (py "&#39;") in
  template visible_url redirect_url title desc img.

(* ================================================================== *)
(** ** Printing and subprocesses *)

(** Code that prints: the monad threads the list of texts passed to
    [print] so far; an exception keeps what was printed before it. *)
Definition IO (A : Type) : Type := list str -> result A * list str.

Definition io_ret {A} (a : A) : IO A := fun out => (Ok a, out).

Definition io_bind {A B} (m : IO A) (k : A -> IO B) : IO B :=
  fun out =>
    match m out with
    | (Ok a, out') => k a out'
    | (Raise e, out') => (Raise e, out')
    end.

Definition print (text : str) : IO unit := fun out => (Ok tt, out ++ [text]).

Definition lift {A} (r : result A) : IO A := fun out => (r, out).

(** [try: body  except C as e: handler(e)] for the exceptions [catches]
    accepts; any other exception propagates. *)
Definition io_try {A} (body : IO A) (catches : pyexc -> bool)
    (handler : pyexc -> IO A) : IO A :=
  fun out =>
    match body out with
    | (Raise e, out') =>
        if catches e then handler e out' else (Raise e, out')
    | r => r
    end.

Declare Scope io_scope.
Delimit Scope io_scope with io.
Notation "x <- m ;; k" := (io_bind m (fun x => k))
  (at level 61, m at next level, right associativity) : io_scope.
Notation "m ;;; k" := (io_bind m (fun _ => k))
  (at level 61, right associativity) : io_scope.

Record CompletedProcess : Type := mkCompleted {
  returncode : Z;
  stdout : str
}.

(** The machine as [subprocess.run] sees it.  [launch args] is what
    running the command gives: a completed process, or the exception of
    a program that could not be started ([FileNotFoundError]).
    [describe args code] is the text of the [CalledProcessError] for a
    command and its exit status.  Each command of [git_push_to_github]
    is issued once, so one answer per command describes a run. *)
Record Shell : Type := mkShell {
  launch : list str -> result CompletedProcess;
  describe : list str -> Z -> str
}.

(** [subprocess.run(args, check=True)] *)
Definition subprocess_run (sh : Shell) (args : list str)
  : result CompletedProcess :=
  p <- launch sh args ;;
  if (returncode p =? 0)%Z then Ok p
  else Raise (PyExc CalledProcessError (describe sh args (returncode p)) None).

Definition is_CalledProcessError (e : pyexc) : bool :=
  exc_class_eqb (exc_cls e) CalledProcessError.

(* ================================================================== *)
(** ** git_push_to_github *)

Definition default_commit_message : str := py "Actualizar link preview".

Definition git_add : list str := [py "git"; py "add"; py "index.html"].
Definition git_status : list str := [py "git"; py "status"; py "--porcelain"].
Definition git_commit (commit_message : str) : list str :=
  [py "git"; py "commit"; py "-m"; commit_message].
Definition git_push : list str := [py "git"; py "push"].

(** Lines 177-212 *)
Definition git_push_to_github (sh : Shell) (commit_message : str) : IO bool :=
  (io_try
     (print (nl ++ py "📤 Subiendo a GitHub...") ;;;
      lift (subprocess_run sh git_add) ;;;
      result <- lift (subprocess_run sh git_status) ;;
      if negb (Str.truthy (Str.strip (stdout result))) then
        print (py "⚠️  No hay cambios para subir") ;;;
        io_ret false
      else
        lift (subprocess_run sh (git_commit commit_message)) ;;;
        lift (subprocess_run sh git_push) ;;;
        print (py "✅ Código subido a GitHub exitosamente") ;;;
        print (py "🚀 Netlify desplegará automáticamente en ~30 segundos") ;;;
        io_ret true)
     is_CalledProcessError
     (fun e =>
        print (py "❌ Error con Git: " ++ exc_str e) ;;;
        print (nl ++ py "💡 Asegúrate de:") ;;;
        print (py "   1. Tener configurado Git: git config --global user.name 'Tu Nombre'") ;;;
        print (py "   2. Estar en un repo: git init") ;;;
        print (py "   3. Tener un remote: git remote add origin URL") ;;;
        io_ret false))%io.

(* ================================================================== *)
(** ** load_config *)

(** The values [json.load] builds. *)
Inductive pyval : Type :=
| PyNone
| PyBool (b : bool)
| PyInt (z : Z)
| PyFloat (literal : str)
| PyStr (s : str)
| PyList (items : list pyval)
| PyDict (items : list (str * pyval)).

(** [json.loads]: the library parser is taken as an interface; it returns
    the value or raises [JSONDecodeError]. *)
Class Json : Type := { json_loads : str -> result pyval }.

(** The file system at the time of the call: [os.path.exists], and what
    opening and reading a file gives (its text or an exception).  The
    two are independent: a file may exist and be unreadable, or vanish
    between the test and the read. *)
Record FileSystem : Type := mkFS {
  path_exists : str -> bool;
  read_text : str -> result str
}.

Definition config_path : str := py ".link_config.json".

(** Lines 266-274.  The body of the [try] either returns a value
    ([Some v]) or falls through ([None]); the bare [except] swallows
    every exception; the final statement returns [None]. *)
Definition load_config {json : Json} (fs : FileSystem) : result pyval :=
  returned <-
    try_except
      (if path_exists fs config_path then
         text <- read_text fs config_path ;;
         v <- json_loads text ;;
         Ok (Some v)
       else Ok None)
      (fun _ => Ok None) ;;
  match returned with
  | Some v => Ok v
  | None => Ok PyNone
  end.

(* ================================================================== *)
(** * The vocabulary of the specification, and example data *)

(** ** Vocabulary *)

(** The trimmed [content] of the first [<meta>] tag carrying the given
    attributes; the empty string when there is no such tag or the tag
    has no [content]. *)
Definition meta_content (soup : BeautifulSoup) (attrs : list (str * str))
  : str :=
  match find soup (py "meta") attrs with
  | Some t => Str.strip (get_default t (py "content") [])
  | None => []
  end.

Definition og (property : str) : list (str * str) :=
  [(py "property", property)].

(** The [src] of the first [<img>] element, when it has one. *)
Definition first_img_src (soup : BeautifulSoup) : option str :=
  match find soup (py "img") [] with
  | Some t => get t (py "src")
  | None => None
  end.

(** The chain of the specification: the first non-empty candidate, the
    default when every candidate is empty. *)
Fixpoint first_non_empty (candidates : list str) (default : str) : str :=
  match candidates with
  | [] => default
  | c :: rest => if Str.truthy c then c else first_non_empty rest default
  end.

(** The trimmed text of the title element; empty when the document has
    no title element or the element has no single string. *)
Definition title_text (soup : BeautifulSoup) : str :=
  match soup_title soup with
  | Some t => match string_of t with Some s => Str.strip s | None => [] end
  | None => []
  end.

(** A URL is absolute when [urlsplit] finds a scheme in it. *)
Definition absolute_url (u : str) : bool :=
  match UrllibParse.urlsplit u [] with
  | Ok parts => Str.truthy (UrllibParse.s_scheme parts)
  | Raise _ => false
  end.

(** The input the specification asks for, an absolute HTTP or HTTPS
    URL: [urlsplit] finds the scheme http or https and a host. *)
Definition http_url (u : str) : bool :=
  match UrllibParse.urlsplit u [] with
  | Ok parts =>
      (Str.eqb (UrllibParse.s_scheme parts) (py "http")
       || Str.eqb (UrllibParse.s_scheme parts) (py "https"))
      && Str.truthy (UrllibParse.s_netloc parts)
  | Raise _ => false
  end.

Section UrlVocabulary.

Import UrllibParse.

(** The characters that end the authority of a URL. *)
Definition delimiter (c : N) : bool :=
  (c =? ch "/") || (c =? ch "?") || (c =? ch "#").

(** The test of [urlsplit] on the brackets of an authority. *)
Definition balanced (netloc : str) : bool :=
  let ob := Str.contains (ch "[") netloc in
  let cb := Str.contains (ch "]") netloc in
  negb ((ob && negb cb) || (cb && negb ob)).

(** What [urlsplit] returns as an authority: a text without delimiter
    that passes the test on brackets. *)
Definition authority (netloc : str) : bool :=
  forallb (fun c => negb (delimiter c)) netloc && balanced netloc.

(** The default scheme as [urlsplit] uses it. *)
Definition normal_scheme (scheme : str) : str :=
  filter (fun c => negb (unsafe c))
    (Str.rstrip_by c0_or_space (Str.lstrip_by c0_or_space scheme)).

(** What [urlsplit] does once the scheme is settled. *)
Definition split_after_scheme (scheme url : str) : result SplitResult :=
  r <- (if Str.startswith (py "//") url then
          let (netloc, rest) := splitnetloc (skipn 2 url) in
          let ob := Str.contains (ch "[") netloc in
          let cb := Str.contains (ch "]") netloc in
          if (ob && negb cb) || (cb && negb ob) then Raise invalid_ipv6
          else Ok (netloc, rest)
        else Ok ([], url)) ;;
  let '(netloc, url) := r in
  let '(url, fragment) :=
    match partition (ch "#") url with
    | Some (a, b) => (a, b)
    | None => (url, [])
    end in
  let '(url, query) :=
    match partition (ch "?") url with
    | Some (a, b) => (a, b)
    | None => (url, [])
    end in
  Ok (mkSplit scheme netloc url query fragment).

End UrlVocabulary.

(** The title step does not raise: the og:title content is non-empty,
    or there is no title element, or the title element has a string. *)
Definition title_resolves (soup : BeautifulSoup) : bool :=
  Str.truthy (meta_content soup (og (py "og:title")))
  || match soup_title soup with
     | None => true
     | Some t => match string_of t with Some _ => true | None => false end
     end.

(** The image step does not raise: urljoin is not called, or returns. *)
Definition image_joins {urllib : Urllib} (url : str) (soup : BeautifulSoup)
  : bool :=
  Str.truthy (meta_content soup (og (py "og:image")))
  || match first_img_src soup with
     | Some src =>
         if Str.truthy src
         then match urljoin url src with Ok _ => true | Raise _ => false end
         else true
     | None => true
     end.

(** The escaping the specification asks for: every double quote becomes
    [&quot;], every single quote [&#39;], any other character stays. *)
Definition html_escape_quotes (s : str) : str :=
  flat_map (fun c => if c =? 34 then py "&quot;"
                     else if c =? 39 then py "&#39;"
                     else [c]) s.

(** The outcomes the specification distinguishes, and a fourth the code
    has: git could not be started at all. *)
Inductive deploy_outcome : Type :=
| Pushed
| NothingToCommit
| GitFailed (e : pyexc)
| NotStarted (e : pyexc).

(** The commands, without the printing: [true] after a push, [false]
    when the work tree has nothing to commit. *)
Definition git_steps (sh : Shell) (commit_message : str) : result bool :=
  subprocess_run sh git_add ;;;
  st <- subprocess_run sh git_status ;;
  if Str.truthy (Str.strip (stdout st)) then
    subprocess_run sh (git_commit commit_message) ;;;
    subprocess_run sh git_push ;;;
    Ok true
  else Ok false.

Definition outcome_of (sh : Shell) (commit_message : str) : deploy_outcome :=
  match git_steps sh commit_message with
  | Ok true => Pushed
  | Ok false => NothingToCommit
  | Raise e => if is_CalledProcessError e then GitFailed e else NotStarted e
  end.

Definition msg_start : str := nl ++ py "📤 Subiendo a GitHub...".
Definition msg_nothing : str := py "⚠️  No hay cambios para subir".
Definition msgs_pushed : list str :=
  [py "✅ Código subido a GitHub exitosamente";
   py "🚀 Netlify desplegará automáticamente en ~30 segundos"].
Definition msgs_failed (e : pyexc) : list str :=
  [py "❌ Error con Git: " ++ exc_str e;
   nl ++ py "💡 Asegúrate de:";
   py "   1. Tener configurado Git: git config --global user.name 'Tu Nombre'";
   py "   2. Estar en un repo: git init";
   py "   3. Tener un remote: git remote add origin URL"].

(** ** Example documents, networks and shells *)

(** A network that answers every request with one response. *)
Definition serve (r : Response) : Network := fun _ => Ok r.

(** Building small documents. *)
Definition meta_property (property content : str) : PageElement :=
  Tag (py "meta") [(py "property", property); (py "content", content)] [].
Definition meta_name (name content : str) : PageElement :=
  Tag (py "meta") [(py "name", name); (py "content", content)] [].
Definition title_tag (children : list PageElement) : PageElement :=
  Tag (py "title") [] children.
Definition img_tag (src : str) : PageElement :=
  Tag (py "img") [(py "src", src)] [].
Definition html (head body : list PageElement) : BeautifulSoup :=
  [Tag (py "html") [] [Tag (py "head") [] head; Tag (py "body") [] body]].
Definition page (status : Z) (reason url : str) (doc : BeautifulSoup)
  : Response :=
  mkResponse status reason url (Ok doc).

Module TitleExamples.

Definition url : str := py "https://example.com/a/".

(** [<meta property="og:title" content="">] and [<title>Hola</title>] *)
Definition empty_og_tag : PageElement := meta_property (py "og:title") [].
Definition empty_og_doc : BeautifulSoup :=
  html [empty_og_tag; title_tag [NavigableString (py "Hola")]] [].

(** [<meta property="og:title" content=" Hello ">] and [<title></title>] *)
Definition hello_tag : PageElement :=
  meta_property (py "og:title") (py " Hello ").
Definition hello_doc : BeautifulSoup :=
  html [title_tag []; hello_tag] [].

End TitleExamples.

Module SiteExample.

(** The end-to-end scenario of the specification. *)
Definition url : str := py "https://site.test/page".
Definition doc : BeautifulSoup :=
  html [meta_property (py "og:title") (py "Hello");
        meta_name (py "description") (py "World")]
       [img_tag (py "/pic.png")].
Definition response : Response := page 200 (py "OK") url doc.

End SiteExample.

Module ImageExamples.

Definition url : str := py "https://example.com/a/".

(** [<img src="b.jpg">] alone *)
Definition relative_doc : BeautifulSoup := html [] [img_tag (py "b.jpg")].
Definition relative : Response := page 200 (py "OK") url relative_doc.

(** The same page reached by a redirect: the request was for the URL
    without the final slash. *)
Definition requested_url : str := py "https://example.com/a".

(** [<meta property="og:image" content="">] and [<img src="b.jpg">] *)
Definition empty_og_tag : PageElement := meta_property (py "og:image") [].
Definition empty_og_doc : BeautifulSoup :=
  html [empty_og_tag] [img_tag (py "b.jpg")].

(** [<img src=" ">]: a src that is one space *)
Definition blank_src_doc : BeautifulSoup := html [] [img_tag (py " ")].

(** [<meta property="og:image" content="/pic.png">] *)
Definition rooted_og_doc : BeautifulSoup :=
  html [meta_property (py "og:image") (py "/pic.png")] [].

End ImageExamples.

Module FailureExamples.

Definition url : str := py "https://example.com/a/".

(** A document without any metadata. *)
Definition bare_doc : BeautifulSoup := html [] [].

(** 300 Multiple Choices, answered with a bare document *)
Definition multiple_choices : Response :=
  page 300 (py "Multiple Choices") url bare_doc.

(** 404 Not Found *)
Definition not_found : Response := page 404 (py "Not Found") url bare_doc.
Definition not_found_error : pyexc :=
  PyExc HTTPError
    (py "404 Client Error: Not Found for url: https://example.com/a/") None.

(** 200 OK with [<title></title>]: the title element has no string *)
Definition empty_title_doc : BeautifulSoup := html [title_tag []] [].
Definition empty_title : Response :=
  page 200 (py "OK") url empty_title_doc.

(** A request that times out *)
Definition timeout_error : pyexc :=
  PyExc Timeout (py "Read timed out. (read timeout=10)") None.
Definition unreachable : Network := fun _ => Raise timeout_error.

End FailureExamples.

Module DeployExamples.

Definition describe (args : list str) (code : Z) : str :=
  py "Command returned non-zero exit status " ++ Str.of_Z code.

(** Every git command succeeds and [git status --porcelain] prints
    nothing: there is nothing to commit. *)
Definition clean_tree : Shell :=
  mkShell (fun _ => Ok (mkCompleted 0 [])) describe.

(** [git push] exits with status 128 (no remote); the other commands
    succeed and the index has a change. *)
Definition no_remote : Shell :=
  mkShell (fun args =>
             if list_eq_dec (list_eq_dec N.eq_dec) args git_push
             then Ok (mkCompleted 128 [])
             else Ok (mkCompleted 0 (py "M  index.html" ++ nl)))
          describe.

(** Every command succeeds and the index has a change. *)
Definition changed_tree : Shell :=
  mkShell (fun _ => Ok (mkCompleted 0 (py "M  index.html" ++ nl)))
          describe.

End DeployExamples.

(* ================================================================== *)
(** * The rest of the script *)

(** ** check_git and is_git_repo *)

Definition git_version : list str := [py "git"; py "--version"].
Definition git_rev_parse : list str :=
  [py "git"; py "rev-parse"; py "--git-dir"].

Definition is_FileNotFoundError (e : pyexc) : bool :=
  exc_class_eqb (exc_cls e) FileNotFoundError.

(** Lines 155-163: [except (FileNotFoundError, CalledProcessError)] *)
Definition check_git (sh : Shell) : result bool :=
  try_except
    (subprocess_run sh git_version ;;; Ok true)
    (fun e => if is_FileNotFoundError e || is_CalledProcessError e
              then Ok false else Raise e).

(** Lines 166-174: [except subprocess.CalledProcessError] *)
Definition is_git_repo (sh : Shell) : result bool :=
  try_except
    (subprocess_run sh git_rev_parse ;;; Ok true)
    (fun e => if is_CalledProcessError e then Ok false else Raise e).

(* ================================================================== *)
(** ** Interactive code: input, print, sys.exit and files *)

(** What can interrupt the script: an exception of the classes above,
    the [EOFError] of [input] at the end of standard input, and the
    [SystemExit] of [sys.exit], which [except Exception] does not
    catch. *)
Inductive signal : Type :=
| Exc (e : pyexc)
| EOFError
| SystemExit (code : Z).

Inductive outcome (A : Type) : Type :=
| Return (a : A)
| Signal (s : signal).
Arguments Signal {A} s.

(** The state of a run: the lines still to be read from standard input,
    the texts written to standard output (the argument of each [print]
    and the prompt of each [input], in order) and the files.  [disk]
    holds the files the script itself opens or tests, under the path
    strings it passes to [open] and [os.path.exists]; what the programs
    it runs keep on disk (git, under .git) is not part of it. *)
Record World : Type := mkWorld {
  stdin : list str;
  printed : list str;
  disk : FileSystem
}.

(** What the script reaches outside the process: the network, the
    programs it runs, and for each path the error, if any, that opening
    it for writing gives. *)
Record Machine : Type := mkMachine {
  network : Network;
  shell : Shell;
  write_error : str -> option pyexc
}.

(** Library functions the script calls and that are taken as
    interfaces. *)
Class Runtime : Type := {
  str_lower : str -> str;         (* [s.lower()] *)
  repr_value : pyval -> str;      (* [str(v)] of a float, a list, a dict *)
  float_truthy : str -> bool;     (* [bool(x)] of the float with a literal *)
  json_dump : pyval -> str;       (* the text [json.dump(v, f, indent=2)] writes *)
  abspath : str -> str            (* [os.path.abspath] *)
}.

Definition Proc (A : Type) : Type := World -> outcome A * World.

Definition ret {A} (a : A) : Proc A := fun w => (Return a, w).

Definition pbind {A B} (m : Proc A) (k : A -> Proc B) : Proc B :=
  fun w =>
    match m w with
    | (Return a, w') => k a w'
    | (Signal s, w') => (Signal s, w')
    end.

Declare Scope proc_scope.
Delimit Scope proc_scope with proc.
Notation "x <- m ;; k" := (pbind m (fun x => k))
  (at level 61, m at next level, right associativity) : proc_scope.
Notation "m ;;; k" := (pbind m (fun _ => k))
  (at level 61, right associativity) : proc_scope.

(** [print(text)] *)
Definition say (text : str) : Proc unit :=
  fun w => (Return tt, mkWorld (stdin w) (printed w ++ [text]) (disk w)).

(** [input(prompt)]: the prompt is written, a line is read *)
Definition input (prompt : str) : Proc str :=
  fun w =>
    match stdin w with
    | line :: rest =>
        (Return line, mkWorld rest (printed w ++ [prompt]) (disk w))
    | [] => (Signal EOFError, mkWorld [] (printed w ++ [prompt]) (disk w))
    end.

(** [sys.exit(code)] *)
Definition sys_exit {A} (code : Z) : Proc A :=
  fun w => (Signal (SystemExit code), w).

(** A call of a function that neither prints nor reads *)
Definition call {A} (r : result A) : Proc A :=
  fun w => match r with
           | Ok a => (Return a, w)
           | Raise e => (Signal (Exc e), w)
           end.

(** A call of a function that prints *)
Definition call_io {A} (m : IO A) : Proc A :=
  fun w =>
    match m (printed w) with
    | (Ok a, out) => (Return a, mkWorld (stdin w) out (disk w))
    | (Raise e, out) => (Signal (Exc e), mkWorld (stdin w) out (disk w))
    end.

(** [try: body  except ...: handler] for the signals [catches] accepts *)
Definition proc_try {A} (body : Proc A) (catches : signal -> bool)
    (handler : signal -> Proc A) : Proc A :=
  fun w =>
    match body w with
    | (Signal s, w') => if catches s then handler s w' else (Signal s, w')
    | r => r
    end.

(** [except Exception]: every exception, not [SystemExit] *)
Definition catch_Exception (s : signal) : bool :=
  match s with
  | Exc _ => true
  | EOFError => true
  | SystemExit _ => false
  end.

(** [except subprocess.CalledProcessError] *)
Definition catch_CalledProcessError (s : signal) : bool :=
  match s with
  | Exc e => is_CalledProcessError e
  | _ => false
  end.

(** [str(e)] of a caught exception *)
Definition signal_str (s : signal) : str :=
  match s with
  | Exc e => exc_str e
  | EOFError => py "EOF when reading a line"
  | SystemExit code => Str.of_Z code
  end.

(** The file system after [path] has been written with [text]. *)
Definition write_file (path text : str) (fs : FileSystem) : FileSystem :=
  mkFS (fun p => if Str.eqb p path then true else path_exists fs p)
       (fun p => if Str.eqb p path then Ok text else read_text fs p).

(** [with open(path, 'w') as f: f.write(text)]: the file is replaced, or
    opening it fails and nothing is written.  [write_error] is the error
    of [open]; a write that fails once the file is open, and truncated,
    is not distinguished: an open file takes the whole text. *)
Definition open_write (m : Machine) (path text : str) : Proc unit :=
  fun w =>
    match write_error m path with
    | Some e => (Signal (Exc e), w)
    | None =>
        (Return tt, mkWorld (stdin w) (printed w) (write_file path text (disk w)))
    end.

(** [c * n] for a one-character string *)
Definition times (c : str) (n : nat) : str := concat (repeat c n).

(* ================================================================== *)
(** ** setup_git_repo *)

Definition git_init : list str := [py "git"; py "init"].
Definition git_remote_add (repo_url : str) : list str :=
  [py "git"; py "remote"; py "add"; py "origin"; repo_url].
Definition git_branch_main : list str :=
  [py "git"; py "branch"; py "-M"; py "main"].

(** Lines 215-252 *)
Definition setup_git_repo (m : Machine) : Proc bool :=
  (say (nl ++ py "🔧 CONFIGURACIÓN DE REPOSITORIO GIT") ;;;
   say (times (py "=") 60) ;;;
   initialised <-
     proc_try
       (call (subprocess_run (shell m) git_init) ;;;
        say (py "✅ Repositorio Git inicializado") ;;;
        ret true)
       catch_CalledProcessError
       (fun _ => say (py "❌ Error al inicializar Git") ;;; ret false) ;;
   if negb initialised then ret false
   else
     say (nl ++ py "📋 Necesitas crear un repositorio en GitHub:") ;;;
     say (py "   1. Ve a: https://github.com/new") ;;;
     say (py "   2. Crea un repositorio (por ejemplo: 'link-preview')") ;;;
     say (py "   3. Copia la URL del repositorio") ;;;
     line <- input (nl ++ py "🔗 Pega la URL de tu repositorio GitHub: ") ;;
     let repo_url := Str.strip line in
     if negb (Str.truthy repo_url) then
       say (py "❌ URL requerida") ;;;
       ret false
     else
       proc_try
         (call (subprocess_run (shell m) (git_remote_add repo_url)) ;;;
          call (subprocess_run (shell m) git_branch_main) ;;;
          say (py "✅ Repositorio configurado correctamente") ;;;
          ret true)
         catch_CalledProcessError
         (fun e => say (py "❌ Error: " ++ signal_str e) ;;; ret false))%proc.

(* ================================================================== *)
(** ** save_config *)

Definition config_of (visible_url redirect_url : str) : pyval :=
  PyDict [(py "last_visible_url", PyStr visible_url);
          (py "last_redirect_url", PyStr redirect_url)].

(** Lines 255-263 *)
Definition save_config {rt : Runtime} (m : Machine)
    (visible_url redirect_url : str) : Proc unit :=
  let config := config_of visible_url redirect_url in
  open_write m config_path (json_dump config).

(* ================================================================== *)
(** ** main *)

(** [bool(v)] *)
Definition py_truthy {rt : Runtime} (v : pyval) : bool :=
  match v with
  | PyNone => false
  | PyBool b => b
  | PyInt z => negb (z =? 0)%Z
  | PyFloat literal => float_truthy literal
  | PyStr s => Str.truthy s
  | PyList items => match items with [] => false | _ => true end
  | PyDict items => match items with [] => false | _ => true end
  end.

(** [str(v)], as a replacement field of an f-string renders [v] *)
Definition py_format {rt : Runtime} (v : pyval) : str :=
  match v with
  | PyNone => py "None"
  | PyBool true => py "True"
  | PyBool false => py "False"
  | PyInt z => Str.of_Z z
  | PyStr s => s
  | _ => repr_value v
  end.

Definition type_name (v : pyval) : str :=
  match v with
  | PyNone => py "NoneType"
  | PyBool _ => py "bool"
  | PyInt _ => py "int"
  | PyFloat _ => py "float"
  | PyStr _ => py "str"
  | PyList _ => py "list"
  | PyDict _ => py "dict"
  end.

Definition no_attribute (v : pyval) (attr : str) : pyexc :=
  PyExc AttributeError
    (py "'" ++ type_name v ++ py "' object has no attribute '" ++ attr
       ++ py "'") None.

Fixpoint dict_lookup (key : str) (items : list (str * pyval))
  : option pyval :=
  match items with
  | [] => None
  | (k, v) :: rest => if Str.eqb k key then Some v else dict_lookup key rest
  end.

(** [d.get(key, default)] for a dict *)
Definition dict_get (items : list (str * pyval)) (key : str)
    (default : pyval) : pyval :=
  match dict_lookup key items with Some x => x | None => default end.

(** [d[key]] for a dict: [KeyError] when the key is missing *)
Definition dict_getitem (items : list (str * pyval)) (key : str)
  : result pyval :=
  match dict_lookup key items with
  | Some x => Ok x
  | None => Raise (PyExc KeyError (py "'" ++ key ++ py "'") None)
  end.

(** [s.startswith(('http://', 'https://'))] *)
Definition is_http (s : str) : bool :=
  Str.startswith (py "http://") s || Str.startswith (py "https://") s.

(** [v.startswith(('http://', 'https://'))]: only a string has it *)
Definition py_is_http (v : pyval) : result bool :=
  match v with
  | PyStr s => Ok (is_http s)
  | _ => Raise (no_attribute v (py "startswith"))
  end.

(** The value is a string once [startswith] has answered. *)
Definition as_str (v : pyval) : str :=
  match v with PyStr s => s | _ => [] end.

Definition banner : list str :=
  [py "╔═══════════════════════════════════════════════════════════╗";
   py "║     GENERADOR CON AUTO-DEPLOY GITHUB → NETLIFY           ║";
   py "╚═══════════════════════════════════════════════════════════╝" ++ nl].

Fixpoint say_all (texts : list str) : Proc unit :=
  match texts with
  | [] => ret tt
  | t :: rest => pbind (say t) (fun _ => say_all rest)
  end.

(** A call that reads the files *)
Definition with_disk {A} (f : FileSystem -> result A) : Proc A :=
  fun w => call (f (disk w)) w.

Section Main.

Context {urllib : Urllib} {json : Json} {rt : Runtime}.
Variable m : Machine.

(** Lines 277-316: the banner, the git check, the two URLs (from the
    saved configuration or typed) and their validation.  The block
    returns the visible and the hidden URL, or exits.  A saved
    configuration is any JSON value: one that is truthy and not a dict
    fails at its first [get]; the values of a dict need not be
    strings. *)
Definition main_urls : Proc (str * str) :=
  (say_all banner ;;;
   git <- call (check_git (shell m)) ;;
   (if negb git then
      say (py "❌ Git no está instalado") ;;;
      say (py "📥 Descárgalo de: https://git-scm.com/downloads") ;;;
      sys_exit 1
    else ret tt) ;;;
   config <- with_disk load_config ;;
   urls <-
     (if py_truthy config then
        say (py "📋 Última configuración:") ;;;
        match config with
        | PyDict items =>
            say (py "   Visible: "
                   ++ py_format (dict_get items (py "last_visible_url")
                                   (PyStr (py "N/A")))) ;;;
            say (py "   Oculto:  "
                   ++ py_format (dict_get items (py "last_redirect_url")
                                   (PyStr (py "N/A")))) ;;;
            line <- input (nl ++ py "¿Usar estas URLs? (s/n): ") ;;
            let usar_anterior := str_lower (Str.strip line) in
            if Str.eqb usar_anterior (py "s") then
              visible <- call (dict_getitem items (py "last_visible_url")) ;;
              hidden <- call (dict_getitem items (py "last_redirect_url")) ;;
              ret (visible, hidden)
            else
              l1 <- input (nl ++ py "🔗 URL VISIBLE (para vista previa): ") ;;
              l2 <- input (py "🎯 URL OCULTA (destino real): ") ;;
              ret (PyStr (Str.strip l1), PyStr (Str.strip l2))
        | _ =>
            (* a value that is not a dict has no [get] *)
            call (Raise (no_attribute config (py "get")))
        end
      else
        l1 <- input (py "🔗 URL VISIBLE (para vista previa): ") ;;
        l2 <- input (py "🎯 URL OCULTA (destino real): ") ;;
        ret (PyStr (Str.strip l1), PyStr (Str.strip l2))) ;;
   let visible := fst urls in
   let hidden := snd urls in
   (if negb (py_truthy visible) || negb (py_truthy hidden) then
      say (nl ++ py "❌ Necesitas ambas URLs") ;;;
      sys_exit 1
    else ret tt) ;;;
   visible_ok <- call (py_is_http visible) ;;
   (if negb visible_ok then
      say (py "❌ La URL visible debe empezar con http:// o https://") ;;;
      sys_exit 1
    else ret tt) ;;;
   hidden_ok <- call (py_is_http hidden) ;;
   (if negb hidden_ok then
      say (py "❌ La URL oculta debe empezar con http:// o https://") ;;;
      sys_exit 1
    else ret tt) ;;;
   ret (as_str visible, as_str hidden))%proc.

(** Lines 349-385: the deployment, after the page has been written *)
Definition main_deploy (title : str) : Proc unit :=
  (repo <- call (is_git_repo (shell m)) ;;
   (if negb repo then
      say (nl ++ py "⚠️  No estás en un repositorio Git") ;;;
      line <- input (py "¿Quieres configurar uno ahora? (s/n): ") ;;
      let configurar := str_lower (Str.strip line) in
      if Str.eqb configurar (py "s") then
        configured <- setup_git_repo m ;;
        if negb configured then
          say (nl ++ py "💡 Configura Git manualmente y vuelve a ejecutar el script") ;;;
          sys_exit 0
        else ret tt
      else
        say (nl ++ py "💡 Para usar auto-deploy necesitas:") ;;;
        say (py "   1. git init") ;;;
        say (py "   2. git remote add origin TU_REPO_URL") ;;;
        sys_exit 0
    else ret tt) ;;;
   say (nl ++ py "🚀 OPCIONES DE DESPLIEGUE:") ;;;
   say (py "   1. Push automático a GitHub (Netlify desplegará solo)") ;;;
   say (py "   2. Solo generar archivo (push manual después)") ;;;
   line <- input (nl ++ py "Elige una opción (1/2): ") ;;
   let opcion := Str.strip line in
   if Str.eqb opcion (py "1") then
     line <- input (nl ++ py "📝 Mensaje del commit (Enter para default): ") ;;
     let commit_msg := Str.strip line in
     let commit_msg :=
       if negb (Str.truthy commit_msg)
       then py "Actualizar link preview: " ++ firstn 30 title
       else commit_msg in
     pushed <- call_io (git_push_to_github (shell m) commit_msg) ;;
     if pushed then
       say (nl ++ py "🎉 ¡LISTO!") ;;;
       say (py "   → GitHub actualizado") ;;;
       say (py "   → Netlify desplegando...") ;;;
       say (py "   → Revisa tu sitio en ~30 segundos")
     else ret tt
   else
     say (nl ++ py "✅ Archivo generado. Para subirlo manualmente ejecuta:") ;;;
     say (py "   git add index.html") ;;;
     say (py "   git commit -m 'Actualizar link'") ;;;
     say (py "   git push"))%proc.

(** Lines 321-347: extraction, the page, the configuration, the summary *)
Definition main_generate (visible hidden : str) : Proc str :=
  (metadata <- call (extract (network m) visible) ;;
   let title := fst (fst metadata) in
   let desc := snd (fst metadata) in
   let img := snd metadata in
   say (nl ++ py "✅ Metadata extraída:") ;;;
   say (py "   📝 Título: " ++ title) ;;;
   say (py "   📄 Descripción: " ++ firstn 70 desc ++ py "...") ;;;
   say (py "   🖼️  Imagen: "
          ++ (if Str.truthy img then py "✓ Encontrada"
              else py "✗ No encontrada")) ;;;
   let html := generate_html visible hidden title desc img in
   open_write m (py "index.html") html ;;;
   say (nl ++ py "✅ Archivo generado: " ++ abspath (py "index.html")) ;;;
   save_config m visible hidden ;;;
   say (nl ++ times (py "=") 65) ;;;
   say (py "RESUMEN:") ;;;
   say (times (py "=") 65) ;;;
   say (py "Vista previa mostrará: " ++ visible) ;;;
   say (py "Click redirige a:      " ++ hidden) ;;;
   say (times (py "=") 65) ;;;
   ret title)%proc.

(** Lines 277-389.  The body is the three blocks above, in the order
    the source runs them; the [try] of line 320 spans the last two. *)
Definition main : Proc unit :=
  (urls <- main_urls ;;
   let visible := fst urls in
   let hidden := snd urls in
   say (nl ++ py "⏳ Extrayendo metadata...") ;;;
   proc_try
     (title <- main_generate visible hidden ;;
      main_deploy title)
     catch_Exception
     (fun e =>
        say (nl ++ py "❌ Error: " ++ signal_str e) ;;;
        sys_exit 1))%proc.

End Main.

(* ================================================================== *)
(** ** Vocabulary for runs of the script *)

(** The computation leaves every file as it is. *)
Definition keeps_disk {A} (p : Proc A) : Prop :=
  forall w, disk (snd (p w)) = disk w.


(* ================================================================== *)
(** ** Models of the library interfaces, for the worked examples

    [JsonModel.dump] follows [json.dumps(v, indent=2)] (with the default
    [ensure_ascii]); a float is written by its literal.  [JsonModel.loads]
    parses the documents the script writes, objects whose values are
    strings, and rejects any other text.  The general theorems hold for
    every [Json] and every [Runtime]. *)

Module JsonModel.

Definition hex_digit (n : N) : N := if n <? 10 then 48 + n else 87 + n.

(** [\uXXXX] *)
Definition u_escape (n : N) : str :=
  [92; 117; hex_digit (n / 4096 mod 16); hex_digit (n / 256 mod 16);
   hex_digit (n / 16 mod 16); hex_digit (n mod 16)].

Definition encode_char (c : N) : str :=
  if c =? 34 then [92; 34]
  else if c =? 92 then [92; 92]
  else if c =? 10 then [92; 110]
  else if c =? 13 then [92; 114]
  else if c =? 9 then [92; 116]
  else if c =? 8 then [92; 98]
  else if c =? 12 then [92; 102]
  else if (32 <=? c) && (c <=? 126) then [c]
  else if c <? 65536 then u_escape c
  else
    let v := c - 65536 in
    u_escape (55296 + v / 1024) ++ u_escape (56320 + v mod 1024).

Definition encode_string (s : str) : str :=
  [34] ++ flat_map encode_char s ++ [34].

Definition newline_indent (level : nat) : str := 10 :: repeat 32 level.

Fixpoint dump (level : nat) (v : pyval) : str :=
  match v with
  | PyNone => py "null"
  | PyBool true => py "true"
  | PyBool false => py "false"
  | PyInt z => Str.of_Z z
  | PyFloat literal => literal
  | PyStr s => encode_string s
  | PyList [] => py "[]"
  | PyList items =>
      py "[" ++ newline_indent (level + 2)%nat
        ++ UrllibParse.join (py "," ++ newline_indent (level + 2)%nat)
             (map (dump (level + 2)%nat) items)
        ++ newline_indent level ++ py "]"
  | PyDict [] => py "{}"
  | PyDict items =>
      py "{" ++ newline_indent (level + 2)%nat
        ++ UrllibParse.join (py "," ++ newline_indent (level + 2)%nat)
             (map (fun kv : str * pyval => let (k, x) := kv in
                             encode_string k ++ py ": " ++ dump (level + 2)%nat x)
                  items)
        ++ newline_indent level ++ py "}"
  end.

Definition is_ws (c : N) : bool :=
  (c =? 32) || (c =? 9) || (c =? 10) || (c =? 13).

Definition hex_value (c : N) : option N :=
  if (48 <=? c) && (c <=? 57) then Some (c - 48)
  else if (97 <=? c) && (c <=? 102) then Some (c - 87)
  else if (65 <=? c) && (c <=? 70) then Some (c - 55)
  else None.

Definition hex4 (a b c d : N) : option N :=
  match hex_value a, hex_value b, hex_value c, hex_value d with
  | Some x, Some y, Some z, Some t => Some (x * 4096 + y * 256 + z * 16 + t)
  | _, _, _, _ => None
  end.

(** The text after an opening quote: the string and what follows its
    closing quote. *)
Fixpoint parse_string (s : str) : option (str * str) :=
  match s with
  | [] => None
  | 34 :: rest => Some ([], rest)
  | 92 :: 117 :: a :: b :: c :: d :: rest =>
      match hex4 a b c d, parse_string rest with
      | Some n, Some (t, rest') => Some (n :: t, rest')
      | _, _ => None
      end
  | 92 :: e :: rest =>
      let plain (c : N) :=
        match parse_string rest with
        | Some (t, rest') => Some (c :: t, rest')
        | None => None
        end in
      if e =? 34 then plain 34
      else if e =? 92 then plain 92
      else if e =? 47 then plain 47
      else if e =? 110 then plain 10
      else if e =? 114 then plain 13
      else if e =? 116 then plain 9
      else if e =? 98 then plain 8
      else if e =? 102 then plain 12
      else None
  | c :: rest =>
      if c <? 32 then None
      else match parse_string rest with
           | Some (t, rest') => Some (c :: t, rest')
           | None => None
           end
  end.

(** Two escapes that form a surrogate pair stand for one character. *)
Fixpoint join_surrogates (s : str) : str :=
  match s with
  | hi :: ((lo :: rest) as tail) =>
      if (55296 <=? hi) && (hi <=? 56319) && (56320 <=? lo) && (lo <=? 57343)
      then (65536 + (hi - 55296) * 1024 + (lo - 56320)) :: join_surrogates rest
      else hi :: join_surrogates tail
  | _ => s
  end.

Definition skip_ws (s : str) : str := Str.lstrip_by is_ws s.

(** The members of an object, after its opening brace. *)
Fixpoint parse_members (fuel : nat) (s : str)
  : option (list (str * pyval)) :=
  match fuel with
  | O => None
  | S fuel' =>
    match skip_ws s with
    | 34 :: s1 =>
      match parse_string s1 with
      | Some (k, s2) =>
        match skip_ws s2 with
        | 58 :: s3 =>
          match skip_ws s3 with
          | 34 :: s4 =>
            match parse_string s4 with
            | Some (x, s5) =>
              let member := (join_surrogates k, PyStr (join_surrogates x)) in
              match skip_ws s5 with
              | 44 :: s6 =>
                  match parse_members fuel' s6 with
                  | Some rest => Some (member :: rest)
                  | None => None
                  end
              | 125 :: s6 =>
                  match skip_ws s6 with
                  | [] => Some [member]
                  | _ => None
                  end
              | _ => None
              end
            | None => None
            end
          | _ => None
          end
        | _ => None
        end
      | None => None
      end
    | _ => None
    end
  end.

Definition decode_error : pyexc :=
  PyExc JSONDecodeError (py "Expecting value") None.

Definition loads (text : str) : result pyval :=
  match skip_ws text with
  | 123 :: s1 =>
    match skip_ws s1 with
    | 125 :: s2 =>
        match skip_ws s2 with [] => Ok (PyDict []) | _ => Raise decode_error end
    | _ =>
        match parse_members (length text) s1 with
        | Some members => Ok (PyDict members)
        | None => Raise decode_error
        end
    end
  | _ => Raise decode_error
  end.

End JsonModel.

#[export] Instance json_model : Json := {| json_loads := JsonModel.loads |}.

(** [lower] on ASCII letters, any other character unchanged; a float is
    rendered by its literal and is falsy when its literal has no
    non-zero digit; a list or a dict is rendered as JSON.  The examples
    only use strings. *)
#[export] Instance example_runtime : Runtime :=
  {| str_lower := UrllibParse.lower;
     repr_value := JsonModel.dump 0;
     float_truthy := fun literal =>
       existsb (fun c => (49 <=? c) && (c <=? 57)) literal;
     json_dump := JsonModel.dump 0;
     abspath := fun p => py "/home/user/preview/" ++ p |}.

(** ** Example machines *)

Module GitExamples.

Definition not_installed : pyexc :=
  PyExc FileNotFoundError
    (py "[Errno 2] No such file or directory: 'git'") None.

(** A machine without git: no command can be started. *)
Definition no_git : Shell :=
  mkShell (fun _ => Raise not_installed) DeployExamples.describe.

End GitExamples.

Module MainExamples.

Definition visible : str := py "https://site.test/page".
Definition hidden : str := py "https://shop.test/landing".

(** Git is installed, the directory is a repository with a change, and
    every file can be written. *)
Definition machine : Machine :=
  mkMachine (serve SiteExample.response) DeployExamples.changed_tree
    (fun _ => None).

(** The same machine without git. *)
Definition machine_without_git : Machine :=
  mkMachine (serve SiteExample.response) GitExamples.no_git (fun _ => None).

(** The same machine, with a site that answers 404. *)
Definition machine_offline : Machine :=
  mkMachine (serve FailureExamples.not_found) DeployExamples.changed_tree
    (fun _ => None).

(** No file exists. *)
Definition empty_disk : FileSystem :=
  mkFS (fun _ => false)
       (fun _ => Raise (PyExc OSError (py "[Errno 2] No such file or directory") None)).

(** A first run: the user types the two URLs, then chooses to push
    (option 1) with the default commit message. *)
Definition first_run : World :=
  mkWorld [visible; hidden; py "1"; []] [] empty_disk.

(** The state of that run once the two URLs have been read. *)
Definition urls_read : World :=
  mkWorld [py "1"; []]
    (banner ++ [py "🔗 URL VISIBLE (para vista previa): ";
                py "🎯 URL OCULTA (destino real): "])
    empty_disk.

(** A later run: the configuration of the first run is on the disk, the
    user accepts it (S) and chooses not to push (2). *)
Definition saved_disk : FileSystem :=
  write_file config_path (JsonModel.dump 0 (config_of visible hidden))
    empty_disk.
Definition second_run : World := mkWorld [py "S"; py "2"] [] saved_disk.

(** A configuration file written by something else: an object without
    the two keys.  The user accepts it. *)
Definition foreign_config : list (str * pyval) :=
  [(py "url", PyStr visible)].
Definition foreign_disk : FileSystem :=
  write_file config_path (JsonModel.dump 0 (PyDict foreign_config))
    empty_disk.
Definition foreign_run : World := mkWorld [py "s"] [] foreign_disk.

End MainExamples.

(* ================================================================== *)
(** * Properties *)

(** ** The library models on examples *)

Example strip_ex : strip (py "   Hola  mundo ") = py "Hola  mundo".
Proof. reflexivity. Qed.

Example decode_ex : py "título" = [116; 237; 116; 117; 108; 111].
Proof. reflexivity. Qed.

Example urljoin_relative :
  UrllibParse.urljoin (py "https://example.com/a/") (py "b.jpg")
  = Ok (py "https://example.com/a/b.jpg").
Proof. reflexivity. Qed.

Example urljoin_rooted :
  UrllibParse.urljoin (py "https://site.test/page") (py "/pic.png")
  = Ok (py "https://site.test/pic.png").
Proof. reflexivity. Qed.

Example urljoin_dots :
  UrllibParse.urljoin (py "https://example.com/a/b/c?q#f") (py "../d;p?x=1#z")
  = Ok (py "https://example.com/a/d;p?x=1#z").
Proof. reflexivity. Qed.

Example urljoin_authority :
  UrllibParse.urljoin (py "https://example.com/a/") (py "//cdn.x/y.png")
  = Ok (py "https://cdn.x/y.png").
Proof. reflexivity. Qed.

(** ** The three blocks of [extract], case by case *)

Lemma truthy_false (s : str) : Str.truthy s = false <-> s = [].
Proof. destruct s; simpl; split; congruence. Qed.

Lemma truthy_true (s : str) : Str.truthy s = true <-> s <> [].
Proof. destruct s; simpl; split; congruence. Qed.

Lemma str_eqb_eq (a b : str) : Str.eqb a b = true <-> a = b.
Proof.
  unfold Str.eqb. destruct (list_eq_dec N.eq_dec a b); split; congruence.
Qed.

Lemma str_eqb_refl (a : str) : Str.eqb a a = true.
Proof. now apply str_eqb_eq. Qed.

Lemma default_title_truthy : Str.truthy default_title = true.
Proof. reflexivity. Qed.

Lemma default_desc_truthy : Str.truthy default_desc = true.
Proof. reflexivity. Qed.

Section Blocks.

Context {urllib : Urllib}.
Variable net : Network.

Lemma extract_title_cases (soup : BeautifulSoup) :
  extract_title soup =
  if Str.truthy (meta_content soup (og (py "og:title")))
  then Ok (meta_content soup (og (py "og:title")))
  else match soup_title soup with
       | None => Ok default_title
       | Some t =>
         match string_of t with
         | None => Raise none_has_no_strip
         | Some s =>
             Ok (if Str.truthy (Str.strip s) then Str.strip s
                 else default_title)
         end
       end.
Proof.
  unfold extract_title, meta_content, og.
  destruct (find soup (py "meta") [(py "property", py "og:title")])
    as [t|]; cbn [opt_truthy negb].
  - destruct (Str.truthy (Str.strip (get_default t (py "content") [])))
      eqn:E; cbn [negb bind].
    + now rewrite E.
    + destruct (soup_title soup) as [tt|]; cbn [bind].
      * destruct (string_of tt); reflexivity.
      * now rewrite E.
  - cbn [Str.truthy].
    destruct (soup_title soup) as [tt|]; cbn [bind]; [|reflexivity].
    destruct (string_of tt); reflexivity.
Qed.

Lemma extract_desc_cases (soup : BeautifulSoup) :
  extract_desc soup =
  first_non_empty
    [meta_content soup (og (py "og:description"));
     meta_content soup [(py "name", py "description")]]
    default_desc.
Proof.
  unfold extract_desc, meta_content, og, first_non_empty.
  destruct (find soup (py "meta") [(py "property", py "og:description")])
    as [t|]; cbn [opt_truthy negb Str.truthy].
  - destruct (Str.truthy (Str.strip (get_default t (py "content") [])))
      eqn:E; cbn [negb]; [now rewrite E|].
    destruct (find soup (py "meta") [(py "name", py "description")]);
      [reflexivity | now rewrite E].
  - destruct (find soup (py "meta") [(py "name", py "description")]);
      reflexivity.
Qed.

Lemma extract_img_cases (self_url : str) (soup : BeautifulSoup) :
  extract_img self_url soup =
  if Str.truthy (meta_content soup (og (py "og:image")))
  then Ok (meta_content soup (og (py "og:image")))
  else match first_img_src soup with
       | Some src => if Str.truthy src then urljoin self_url src else Ok []
       | None => Ok []
       end.
Proof.
  unfold extract_img, meta_content, first_img_src, og, getitem.
  assert (H : forall img : str,
    (if negb (Str.truthy img)
     then match find soup (py "img") [] with
          | Some t =>
              if opt_truthy (get t (py "src"))
              then bind match get t (py "src") with
                        | Some v => Ok v
                        | None =>
                           Raise (PyExc KeyError
                                    (py "'" ++ py "src" ++ py "'") None)
                        end (fun src => urljoin self_url src)
              else Ok img
          | None => Ok img
          end
     else Ok img)
    = if Str.truthy img then Ok img
      else match match find soup (py "img") [] with
                 | Some t => get t (py "src")
                 | None => None
                 end with
           | Some src =>
               if Str.truthy src then urljoin self_url src else Ok []
           | None => Ok []
           end).
  { intros img. destruct (Str.truthy img) eqn:E; cbn [negb]; [reflexivity|].
    apply truthy_false in E; subst img.
    destruct (find soup (py "img") []) as [t|]; [|reflexivity].
    destruct (get t (py "src")) as [s|]; cbn [opt_truthy]; [|reflexivity].
    destruct (Str.truthy s); reflexivity. }
  destruct (find soup (py "meta") [(py "property", py "og:image")]);
    apply H.
Qed.

Lemma soup_parsed (r : Response) (doc : BeautifulSoup) :
  parsed_text r = Ok doc -> soup r = doc.
Proof. unfold soup. now intros ->. Qed.

(** A response in which a tag is found has a body the parser
    accepted. *)
Lemma found_in_parsed (r : Response) (name : str) (attrs : list (str * str))
    (tag : PageElement) :
  find (soup r) name attrs = Some tag -> parsed_text r = Ok (soup r).
Proof.
  unfold soup. destruct (parsed_text r) as [doc|e]; [reflexivity|].
  discriminate.
Qed.

(** [extract], step by step: the request, the status check, the
    parsing, the title, the image; every exception leaves wrapped. *)
Lemma extract_steps (self_url : str) :
  extract net self_url =
  match net self_url with
  | Raise e => Raise (wrap e)
  | Ok r =>
    match raise_for_status r with
    | Raise e => Raise (wrap e)
    | Ok _ =>
      match parsed_text r with
      | Raise e => Raise (wrap e)
      | Ok _ =>
        match extract_title (soup r) with
        | Raise e => Raise (wrap e)
        | Ok title =>
          match extract_img self_url (soup r) with
          | Raise e => Raise (wrap e)
          | Ok img => Ok (title, extract_desc (soup r), img)
          end
        end
      end
    end
  end.
Proof.
  unfold extract, try_except, bind, soup.
  destruct (net self_url) as [r|e]; [|reflexivity].
  destruct (raise_for_status r); [|reflexivity].
  destruct (parsed_text r) as [doc|e]; [|reflexivity].
  destruct (extract_title doc); [|reflexivity].
  destruct (extract_img self_url doc); reflexivity.
Qed.

Lemma extract_returns_inv (self_url : str) (title desc img : str) :
  extract net self_url = Ok (title, desc, img) ->
  exists r,
    net self_url = Ok r /\ raise_for_status r = Ok tt
    /\ extract_title (soup r) = Ok title
    /\ desc = extract_desc (soup r)
    /\ extract_img self_url (soup r) = Ok img.
Proof.
  rewrite extract_steps.
  destruct (net self_url) as [r|e]; [|discriminate].
  destruct (raise_for_status r) as [[]|] eqn:Es; [|discriminate].
  destruct (parsed_text r) as [doc|] eqn:Ep; [|discriminate].
  destruct (extract_title (soup r)) as [t|] eqn:Et; [|discriminate].
  destruct (extract_img self_url (soup r)) as [i|] eqn:Ei; [|discriminate].
  intros H; injection H as <- <- <-. exists r. repeat split; assumption.
Qed.

(** A body the parser rejects makes [extract] fail, whatever the
    status. *)
Lemma rejected_markup_raises (self_url : str) (r : Response) (e : pyexc) :
  net self_url = Ok r ->
  raise_for_status r = Ok tt ->
  parsed_text r = Raise e ->
  extract net self_url = Raise (wrap e).
Proof. intros Hnet Hst Hp. now rewrite extract_steps, Hnet, Hst, Hp. Qed.

Ltac status_cases r :=
  unfold raise_for_status;
  destruct (Z.leb_spec 400 (status_code r));
  destruct (Z.ltb_spec (status_code r) 500);
  destruct (Z.leb_spec 500 (status_code r));
  destruct (Z.ltb_spec (status_code r) 600);
  cbn [andb].

Lemma raise_for_status_ok (r : Response) :
  raise_for_status r = Ok tt <->
  ~ (400 <= status_code r < 600)%Z.
Proof.
  status_cases r; split; intros; try discriminate; try reflexivity; lia.
Qed.

Lemma raise_for_status_raises (r : Response) :
  (400 <= status_code r < 600)%Z ->
  exists e, raise_for_status r = Raise e /\ exc_cls e = HTTPError.
Proof.
  intros H. status_cases r; try lia; eexists; split; reflexivity.
Qed.

End Blocks.

Unset Implicit Arguments.

(* ================================================================== *)
(** ** What a result is made of *)

(** What a returned triple is made of: each field is the first non-empty
    value of its chain.  A meta content or a title text is skipped when
    its trimmed value is empty; the src of the first img is skipped when
    it is empty as written. *)
Lemma extract_returns_fields :
  forall (urllib : Urllib) (net : Network) (url : str) (r : Response)
         (title desc img : str),
    net url = Ok r ->
    extract net url = Ok (title, desc, img) ->
    title = first_non_empty
              [meta_content (soup r) (og (py "og:title"));
               title_text (soup r)]
              default_title
    /\ desc = first_non_empty
                [meta_content (soup r) (og (py "og:description"));
                 meta_content (soup r) [(py "name", py "description")]]
                default_desc
    /\ (if Str.truthy (meta_content (soup r) (og (py "og:image")))
        then img = meta_content (soup r) (og (py "og:image"))
        else match first_img_src (soup r) with
             | Some src =>
                 if Str.truthy src then urljoin url src = Ok img
                 else img = []
             | None => img = []
             end).
Proof.
  intros urllib net url r title desc img Hnet H.
  apply extract_returns_inv in H.
  destruct H as (r' & Hr & _ & Ht & Hd & Hi).
  rewrite Hnet in Hr. injection Hr as <-.
  split; [|split].
  - rewrite extract_title_cases in Ht. unfold first_non_empty, title_text.
    destruct (Str.truthy (meta_content (soup r) (og (py "og:title"))));
      [now injection Ht|].
    destruct (soup_title (soup r)) as [t|];
      [|injection Ht as <-; reflexivity].
    destruct (string_of t) as [s|]; [|discriminate].
    injection Ht as <-. destruct (Str.truthy (Str.strip s)); reflexivity.
  - now rewrite Hd, extract_desc_cases.
  - rewrite extract_img_cases in Hi.
    destruct (Str.truthy (meta_content (soup r) (og (py "og:image"))));
      [now injection Hi|].
    destruct (first_img_src (soup r)) as [src|]; [|now injection Hi].
    destruct (Str.truthy src); [assumption | now injection Hi].
Qed.

Lemma first_non_empty_truthy (candidates : list str) (default : str) :
  default <> [] -> first_non_empty candidates default <> [].
Proof.
  intros Hd. induction candidates as [|c rest IH]; [exact Hd|].
  cbn. destruct (Str.truthy c) eqn:E; [now apply truthy_true | exact IH].
Qed.

Lemma extract_returns_non_empty :
  forall (urllib : Urllib) (net : Network) (url : str)
         (title desc img : str),
    extract net url = Ok (title, desc, img) -> title <> [] /\ desc <> [].
Proof.
  intros urllib net url title desc img H.
  destruct (extract_returns_inv net url H) as (r & Hnet & _).
  destruct (extract_returns_fields urllib net url r title desc img Hnet H)
    as (-> & -> & _).
  split; apply first_non_empty_truthy; discriminate.
Qed.

(* ================================================================== *)
(** ** Facts about urljoin *)

(** The scheme and the authority of a URL survive [urlunparse] followed
    by [urlsplit]; joining to an HTTP(S) URL with a host therefore gives
    a text in which [urlsplit] finds a scheme again. *)

Section Join.

Import UrllibParse.

Lemma splitnetloc_fst (s : str) :
  forallb (fun c => negb (delimiter c)) (fst (splitnetloc s)) = true.
Proof.
  induction s as [|x s IH]; [reflexivity|].
  cbn [splitnetloc]. fold (delimiter x).
  destruct (delimiter x) eqn:E; [reflexivity|].
  destruct (splitnetloc s) as [a b]. cbn [fst forallb] in *.
  now rewrite E, IH.
Qed.

Lemma splitnetloc_app (a b : str) :
  forallb (fun c => negb (delimiter c)) a = true ->
  match b with [] => True | c :: _ => delimiter c = true end ->
  splitnetloc (a ++ b) = (a, b).
Proof.
  intros Ha Hb. induction a as [|x a IH]; cbn [app].
  - destruct b as [|c b]; [reflexivity|].
    cbn [splitnetloc]. fold (delimiter c). now rewrite Hb.
  - cbn [forallb] in Ha. apply andb_true_iff in Ha. destruct Ha as [Hx Ha].
    cbn [splitnetloc]. fold (delimiter x).
    apply negb_true_iff in Hx. rewrite Hx, (IH Ha). reflexivity.
Qed.

Lemma urlsplit_unfold (url scheme : str) :
  urlsplit url scheme =
  let url := filter (fun c => negb (unsafe c))
               (Str.lstrip_by c0_or_space url) in
  match partition (ch ":") url with
  | Some (c :: pre, post) =>
      if (is_lower c || is_upper c) && forallb scheme_char (c :: pre)
      then split_after_scheme (lower (c :: pre)) post
      else split_after_scheme (normal_scheme scheme) url
  | _ => split_after_scheme (normal_scheme scheme) url
  end.
Proof.
  unfold urlsplit, split_after_scheme, normal_scheme. cbv zeta.
  destruct (partition (ch ":") _) as [[[|c pre] post]|]; try reflexivity.
  destruct ((is_lower c || is_upper c) && forallb scheme_char (c :: pre));
    reflexivity.
Qed.

Lemma split_after_scheme_inv (scheme url : str) (sp : SplitResult) :
  split_after_scheme scheme url = Ok sp ->
  s_scheme sp = scheme /\ authority (s_netloc sp) = true.
Proof.
  unfold split_after_scheme.
  destruct (Str.startswith (py "//") url).
  - pose proof (splitnetloc_fst (skipn 2 url)) as Hn.
    destruct (splitnetloc (skipn 2 url)) as [netloc rest].
    cbn [fst] in Hn. cbv zeta.
    destruct ((Str.contains (ch "[") netloc
               && negb (Str.contains (ch "]") netloc))
              || (Str.contains (ch "]") netloc
                  && negb (Str.contains (ch "[") netloc))) eqn:B;
      cbn [bind]; [discriminate|].
    destruct (partition (ch "#") rest) as [[a b]|];
      [destruct (partition (ch "?") a) as [[a' b']|]
      |destruct (partition (ch "?") rest) as [[a' b']|]];
      intros H; injection H as <-; cbn [s_scheme s_netloc];
      (split; [reflexivity|]); unfold authority, balanced;
      now rewrite Hn, B.
  - cbn [bind].
    destruct (partition (ch "#") url) as [[a b]|];
      [destruct (partition (ch "?") a) as [[a' b']|]
      |destruct (partition (ch "?") url) as [[a' b']|]];
      intros H; injection H as <-; cbn [s_scheme s_netloc];
      split; reflexivity.
Qed.

Lemma split_after_scheme_returns (scheme netloc rest : str) :
  authority netloc = true ->
  match rest with [] => True | c :: _ => delimiter c = true end ->
  exists sp, split_after_scheme scheme (py "//" ++ netloc ++ rest) = Ok sp
             /\ s_scheme sp = scheme.
Proof.
  intros Hn Hrest. unfold authority in Hn. apply andb_true_iff in Hn.
  destruct Hn as [Hd Hb]. unfold balanced in Hb. apply negb_true_iff in Hb.
  unfold split_after_scheme.
  change (Str.startswith (py "//") (py "//" ++ netloc ++ rest)) with true.
  cbv iota.
  change (skipn 2 (py "//" ++ netloc ++ rest)) with (netloc ++ rest).
  rewrite (splitnetloc_app _ _ Hd Hrest). cbv zeta. rewrite Hb. cbn [bind].
  destruct (partition (ch "#") rest) as [[a b]|];
    [destruct (partition (ch "?") a) as [[a' b']|]
    |destruct (partition (ch "?") rest) as [[a' b']|]];
    eexists; split; reflexivity.
Qed.

Lemma urlsplit_inv (u d : str) (sp : SplitResult) :
  urlsplit u d = Ok sp ->
  (s_scheme sp = normal_scheme d
   \/ (s_scheme sp <> [] /\ forall d', urlsplit u d' = Ok sp))
  /\ authority (s_netloc sp) = true.
Proof.
  intros H.
  assert (F : forall d', urlsplit u d' =
    let url := filter (fun c => negb (unsafe c))
                 (Str.lstrip_by c0_or_space u) in
    match partition (ch ":") url with
    | Some (c :: pre, post) =>
        if (is_lower c || is_upper c) && forallb scheme_char (c :: pre)
        then split_after_scheme (lower (c :: pre)) post
        else split_after_scheme (normal_scheme d') url
    | _ => split_after_scheme (normal_scheme d') url
    end) by (intros d'; apply urlsplit_unfold).
  rewrite F in H. cbv zeta in *.
  destruct (partition (ch ":") _) as [[[|c pre] post]|].
  - apply split_after_scheme_inv in H. destruct H as [H1 H2].
    split; [now left | exact H2].
  - destruct ((is_lower c || is_upper c) && forallb scheme_char (c :: pre)).
    + pose proof (split_after_scheme_inv _ _ _ H) as [H1 H2].
      split; [|exact H2]. right. split; [rewrite H1; discriminate|].
      intros d'. rewrite F. exact H.
    + apply split_after_scheme_inv in H. destruct H as [H1 H2].
      split; [now left | exact H2].
  - apply split_after_scheme_inv in H. destruct H as [H1 H2].
    split; [now left | exact H2].
Qed.

Lemma urlparse_inv (u d : str) (p : ParseResult) :
  urlparse u d = Ok p ->
  exists sp, urlsplit u d = Ok sp
             /\ scheme p = s_scheme sp /\ netloc p = s_netloc sp.
Proof.
  unfold urlparse. destruct (urlsplit u d) as [sp|]; [|discriminate].
  cbn [bind].
  destruct (mem (s_scheme sp) uses_params && Str.contains (ch ";") (s_path sp));
    [destruct (splitparams (s_path sp))|];
    intros H; injection H as <-; exists sp; repeat split; reflexivity.
Qed.


Lemma forallb_filter {A} (f g : A -> bool) (l : list A) :
  forallb f l = true -> forallb f (filter g l) = true.
Proof.
  induction l as [|x l IH]; [reflexivity|].
  cbn [forallb filter]. intros H. apply andb_true_iff in H.
  destruct H as [Hx Hl]. destruct (g x); cbn [forallb];
    [now rewrite Hx, IH | now apply IH].
Qed.

Lemma contains_filter (c : N) (g : N -> bool) (s : str) :
  g c = true -> Str.contains c (filter g s) = Str.contains c s.
Proof.
  intros Hc. unfold Str.contains.
  induction s as [|x s IH]; [reflexivity|].
  cbn [filter existsb]. destruct (g x) eqn:Ex; cbn [existsb];
    [now rewrite IH|].
  destruct (N.eqb_spec c x) as [->|_]; [congruence | exact IH].
Qed.

Lemma authority_filter (n : str) :
  authority n = true ->
  authority (filter (fun c => negb (unsafe c)) n) = true.
Proof.
  unfold authority, balanced. intros H. apply andb_true_iff in H.
  destruct H as [H1 H2].
  rewrite (forallb_filter _ _ _ H1).
  rewrite !contains_filter by reflexivity. exact H2.
Qed.

Lemma absolute_after_authority (s n rest : str) :
  s = py "http" \/ s = py "https" ->
  authority n = true ->
  match rest with [] => True | c :: _ => delimiter c = true end ->
  absolute_url (s ++ py ":" ++ py "//" ++ n ++ rest) = true.
Proof.
  intros Hs Hn Hrest.
  apply authority_filter in Hn.
  assert (Hr : match filter (fun c => negb (unsafe c)) rest with
               | [] => True
               | c :: _ => delimiter c = true
               end).
  { destruct rest as [|c rest]; [exact I|].
    cbn [filter].
    assert (Hu : unsafe c = false).
    { unfold delimiter in Hrest. unfold unsafe.
      destruct (N.eqb_spec c (ch "/")) as [->|_]; [reflexivity|].
      destruct (N.eqb_spec c (ch "?")) as [->|_]; [reflexivity|].
      destruct (N.eqb_spec c (ch "#")) as [->|_]; [reflexivity|].
      discriminate. }
    rewrite Hu. exact Hrest. }
  destruct (split_after_scheme_returns s _ _ Hn Hr) as (sp & Hsp & Hscheme).
  unfold absolute_url. rewrite urlsplit_unfold. cbv zeta.
  assert (E : filter (fun c => negb (unsafe c))
                (Str.lstrip_by c0_or_space
                   (s ++ py ":" ++ py "//" ++ n ++ rest))
              = s ++ py ":" ++ py "//"
                  ++ filter (fun c => negb (unsafe c)) n
                  ++ filter (fun c => negb (unsafe c)) rest).
  { rewrite <- filter_app. destruct Hs as [-> | ->]; reflexivity. }
  rewrite E.
  assert (P : partition (ch ":")
                (s ++ py ":" ++ py "//"
                   ++ filter (fun c => negb (unsafe c)) n
                   ++ filter (fun c => negb (unsafe c)) rest)
              = Some (s, py "//"
                         ++ filter (fun c => negb (unsafe c)) n
                         ++ filter (fun c => negb (unsafe c)) rest))
    by (destruct Hs as [-> | ->]; reflexivity).
  rewrite P.
  destruct Hs as [-> | ->].
  - change (py "http") with (104 :: py "ttp") at 1. cbv iota.
    change ((is_lower 104 || is_upper 104)
            && forallb scheme_char (104 :: py "ttp")) with true.
    cbv iota. change (lower (104 :: py "ttp")) with (py "http").
    rewrite Hsp, Hscheme. reflexivity.
  - change (py "https") with (104 :: py "ttps") at 1. cbv iota.
    change ((is_lower 104 || is_upper 104)
            && forallb scheme_char (104 :: py "ttps")) with true.
    cbv iota. change (lower (104 :: py "ttps")) with (py "https").
    rewrite Hsp, Hscheme. reflexivity.
Qed.

Lemma urlunparse_absolute (s n path params query fragment : str) :
  s = py "http" \/ s = py "https" ->
  n <> [] -> authority n = true ->
  absolute_url (urlunparse (mkParse s n path params query fragment)) = true.
Proof.
  intros Hs Hne Hn.
  unfold urlunparse, urlunsplit.
  cbn [UrllibParse.scheme UrllibParse.netloc UrllibParse.path
       UrllibParse.params UrllibParse.query UrllibParse.fragment].
  set (url0 := if Str.truthy params then path ++ py ";" ++ params else path).
  apply truthy_true in Hne. rewrite Hne. cbn [orb]. cbv zeta.
  assert (Ht : Str.truthy s = true) by (destruct Hs as [-> | ->]; reflexivity).
  rewrite Ht.
  set (url1 := if Str.truthy url0 && negb (Str.startswith (py "/") url0)
               then py "/" ++ url0 else url0).
  assert (H1 : match url1 with [] => True | c :: _ => delimiter c = true end).
  { subst url1. destruct url0 as [|c url0']; [exact I|].
    cbn [Str.truthy andb].
    destruct (Str.startswith (py "/") (c :: url0')) eqn:E; cbn [negb];
      [|reflexivity].
    change (Str.startswith (py "/") (c :: url0')) with ((47 =? c) && true)
      in E.
    apply andb_true_iff in E. destruct E as [E _].
    apply N.eqb_eq in E. subst c. reflexivity. }
  assert (Hrest : forall tail : str,
            match tail with [] => True | c :: _ => delimiter c = true end ->
            match url1 ++ tail with
            | [] => True
            | c :: _ => delimiter c = true
            end).
  { intros tail Htail. destruct url1; [exact Htail | exact H1]. }
  destruct (Str.truthy query); destruct (Str.truthy fragment);
    rewrite <- ?app_assoc.
  - apply (absolute_after_authority s n
             (url1 ++ py "?" ++ query ++ py "#" ++ fragment) Hs Hn).
    apply Hrest. reflexivity.
  - apply (absolute_after_authority s n (url1 ++ py "?" ++ query) Hs Hn).
    apply Hrest. reflexivity.
  - apply (absolute_after_authority s n (url1 ++ py "#" ++ fragment) Hs Hn).
    apply Hrest. reflexivity.
  - rewrite <- (app_nil_r url1).
    apply (absolute_after_authority s n (url1 ++ []) Hs Hn).
    apply Hrest. exact I.
Qed.

Lemma http_url_inv (u : str) :
  http_url u = true ->
  exists sp, urlsplit u [] = Ok sp
    /\ (s_scheme sp = py "http" \/ s_scheme sp = py "https")
    /\ s_netloc sp <> [] /\ authority (s_netloc sp) = true.
Proof.
  unfold http_url. destruct (urlsplit u []) as [sp|] eqn:E; [|discriminate].
  intros H. apply andb_true_iff in H. destruct H as [H1 H2].
  exists sp. split; [reflexivity|]. split; [|split].
  - apply orb_true_iff in H1. destruct H1 as [H1|H1];
      apply str_eqb_eq in H1; auto.
  - now apply truthy_true.
  - now apply (urlsplit_inv u [] sp).
Qed.

Lemma http_url_absolute (u : str) : http_url u = true -> absolute_url u = true.
Proof.
  intros H. destruct (http_url_inv u H) as (sp & E & Hs & _).
  unfold absolute_url. rewrite E. destruct Hs as [-> | ->]; reflexivity.
Qed.

Lemma urlparse_returns (u d : str) (sp : SplitResult) :
  urlsplit u d = Ok sp ->
  exists p, urlparse u d = Ok p
            /\ scheme p = s_scheme sp /\ netloc p = s_netloc sp.
Proof.
  intros E. unfold urlparse. rewrite E. cbn [bind].
  destruct (mem (s_scheme sp) uses_params && Str.contains (ch ";") (s_path sp));
    [destruct (splitparams (s_path sp))|];
    eexists; repeat split; reflexivity.
Qed.

(** Joining anything to an HTTP(S) URL with a host gives an absolute
    URL. *)
Lemma urljoin_absolute (base url joined : str) :
  http_url base = true ->
  urljoin base url = Ok joined ->
  absolute_url joined = true.
Proof.
  intros Hb. pose proof (http_url_absolute base Hb) as Habs.
  destruct (http_url_inv base Hb) as (sb & Eb & Hsb & Hnb & Hab).
  assert (Htb : Str.truthy base = true)
    by (destruct base; [vm_compute in Hb; discriminate | reflexivity]).
  unfold urljoin. rewrite Htb. cbn [negb].
  destruct (Str.truthy url); cbn [negb];
    [|intros H; injection H as <-; exact Habs].
  destruct (urlparse_returns _ _ _ Eb) as (b & Epb & Hsch & Hnl).
  rewrite Epb. cbn [bind].
  destruct (urlparse url (scheme b)) as [u|e] eqn:Eu; cbn [bind];
    [|discriminate].
  destruct (urlparse_inv _ _ _ Eu) as (su & Esu & Hsu & Hnu).
  destruct (urlsplit_inv _ _ _ Esu) as [Hcase Hau].
  rewrite <- Hsch in Hsb. rewrite <- Hnl in Hnb, Hab.
  assert (Hnorm : normal_scheme (scheme b) = scheme b)
    by (destruct Hsb as [-> | ->]; reflexivity).
  destruct (Str.eqb (scheme u) (scheme b)) eqn:Eq; cbn [negb orb].
  - apply str_eqb_eq in Eq.
    assert (Hu : scheme u = py "http" \/ scheme u = py "https")
      by (rewrite Eq; exact Hsb).
    assert (Hrel : mem (scheme u) uses_relative = true)
      by (destruct Hu as [-> | ->]; reflexivity).
    assert (Hnet : mem (scheme u) uses_netloc = true)
      by (destruct Hu as [-> | ->]; reflexivity).
    rewrite Hrel, Hnet. cbn [negb andb]. cbv zeta.
    destruct (Str.truthy (netloc u)) eqn:Hn.
    + intros H; injection H as <-.
      destruct u as [s n p pa q f].
      cbn [scheme netloc] in *.
      apply urlunparse_absolute;
        [exact Hu | now apply truthy_true | now rewrite Hnu].
    + destruct (negb (Str.truthy (path u)) && negb (Str.truthy (params u)));
        intros H; injection H as <-;
        apply urlunparse_absolute; assumption.
  - intros H; injection H as <-.
    destruct Hcase as [Hd | [Hne Hall]].
    + exfalso. rewrite <- Hsu, Hnorm in Hd.
      rewrite Hd, str_eqb_refl in Eq. discriminate.
    + unfold absolute_url. rewrite (Hall []). now apply truthy_true.
Qed.

End Join.

Example http_url_ex :
  http_url (py "https://site.test/page") = true
  /\ http_url (py "/pic.png") = false
  /\ http_url (py "ftp://site.test/page") = false.
Proof. repeat split; vm_compute; reflexivity. Qed.

(** The host is needed: a URL that starts with http:// and has no host
    can be joined into a text in which [urlsplit] finds no URL. *)
Example join_to_url_without_host :
  http_url (py "http:////[x") = false
  /\ urljoin (py "http:////[x") (py "#f") = Ok (py "http://[x#f")
  /\ absolute_url (py "http://[x#f") = false.
Proof. repeat split; vm_compute; reflexivity. Qed.

(* ================================================================== *)
(** ** The title *)

(** C1, as stated, fails: a document whose og:title tag has an empty
    content attribute and whose title element reads Hola is given the
    title Hola, not the (empty) trimmed content of the og:title tag. *)
Lemma og_title_empty_content_is_skipped :
  find TitleExamples.empty_og_doc (py "meta") (og (py "og:title"))
    = Some TitleExamples.empty_og_tag
  /\ extract (serve (page 200 (py "OK") TitleExamples.url
                       TitleExamples.empty_og_doc))
       TitleExamples.url
     = Ok (py "Hola", default_desc, [])
  /\ py "Hola"
     <> Str.strip (get_default TitleExamples.empty_og_tag (py "content") []).
Proof.
  split; [reflexivity|]. split; [reflexivity|]. vm_compute. discriminate.
Qed.

(** C1, amended: for every fetched document that contains an og:title
    meta tag whose trimmed content is not empty, the title of the result
    is that trimmed content, whatever the document's title element is;
    in that case extraction can fail only in the image step (a document
    in which a tag is found is the tree of a body the parser
    accepted).  An
    og:title tag whose trimmed content is empty is skipped: the title
    of a result is then the trimmed text of the title element if that
    is non-empty, and the default otherwise. *)
Theorem og_title_non_empty_wins :
  forall (urllib : Urllib) (net : Network) (url : str) (r : Response)
         (tag : PageElement),
    net url = Ok r ->
    raise_for_status r = Ok tt ->
    find (soup r) (py "meta") (og (py "og:title")) = Some tag ->
    (Str.strip (get_default tag (py "content") []) <> [] ->
     match extract net url with
     | Ok (title, _, _) =>
         title = Str.strip (get_default tag (py "content") [])
     | Raise e =>
         exists e0, extract_img url (soup r) = Raise e0 /\ e = wrap e0
     end)
    /\ (Str.strip (get_default tag (py "content") []) = [] ->
        forall title desc img,
          extract net url = Ok (title, desc, img) ->
          title = first_non_empty [title_text (soup r)] (py "Sin título")).
Proof.
  intros urllib net url r tag Hnet Hst Htag. split.
  - intros Hne.
    rewrite extract_steps, Hnet, Hst, (found_in_parsed r _ _ Htag).
    rewrite extract_title_cases.
    unfold meta_content. rewrite Htag.
    apply truthy_true in Hne. rewrite Hne.
    destruct (extract_img url (soup r)) as [i|e0]; [reflexivity|].
    now exists e0.
  - intros Hempty title desc img H.
    destruct (extract_returns_inv net url H) as (r' & Hr & _ & Ht & _).
    rewrite Hnet in Hr. injection Hr as <-.
    rewrite extract_title_cases in Ht. unfold meta_content in Ht.
    rewrite Htag, Hempty in Ht. cbn [Str.truthy] in Ht.
    unfold first_non_empty, title_text.
    destruct (soup_title (soup r)) as [t|];
      [|injection Ht as <-; reflexivity].
    destruct (string_of t) as [s|]; [|discriminate].
    injection Ht as <-. destruct (Str.truthy (Str.strip s)); reflexivity.
Qed.

Lemma og_title_non_empty_wins_witness :
  let r := page 200 (py "OK") TitleExamples.url TitleExamples.hello_doc in
  serve r TitleExamples.url = Ok r
  /\ raise_for_status r = Ok tt
  /\ find (soup r) (py "meta") (og (py "og:title"))
     = Some TitleExamples.hello_tag
  /\ Str.strip (get_default TitleExamples.hello_tag (py "content") []) <> []
  /\ match extract (serve r) TitleExamples.url with
     | Ok (title, _, _) =>
         title
         = Str.strip (get_default TitleExamples.hello_tag (py "content") [])
     | Raise e =>
         exists e0,
           extract_img TitleExamples.url (soup r) = Raise e0 /\ e = wrap e0
     end.
Proof.
  intros r.
  assert (H1 : serve r TitleExamples.url = Ok r) by reflexivity.
  assert (H2 : raise_for_status r = Ok tt) by reflexivity.
  assert (H3 : find (soup r) (py "meta") (og (py "og:title"))
               = Some TitleExamples.hello_tag) by reflexivity.
  assert (H4 : Str.strip
                 (get_default TitleExamples.hello_tag (py "content") [])
               <> []) by (vm_compute; discriminate).
  refine (conj H1 (conj H2 (conj H3 (conj H4 _)))).
  exact (proj1 (og_title_non_empty_wins python_urllib (serve r)
                  TitleExamples.url r TitleExamples.hello_tag H1 H2 H3) H4).
Defined.

Example hello_doc_title :
  extract (serve (page 200 (py "OK") TitleExamples.url
                    TitleExamples.hello_doc)) TitleExamples.url
  = Ok (py "Hello", default_desc, []).
Proof. reflexivity. Qed.

(* ================================================================== *)
(** ** The description *)

Example site_example :
  extract (serve SiteExample.response) SiteExample.url
  = Ok (py "Hello", py "World", py "https://site.test/pic.png").
Proof. reflexivity. Qed.

(** C7: for every fetched document, the description of the result is
    the trimmed og:description content if that is non-empty; otherwise
    the trimmed content of the meta tag named description if that is
    non-empty; otherwise the literal default.  The description step
    never fails: when extraction fails, the parsing of the body, the
    title step or the image step did. *)
Theorem description_three_tier :
  forall (urllib : Urllib) (net : Network) (url : str) (r : Response),
    net url = Ok r ->
    raise_for_status r = Ok tt ->
    match extract net url with
    | Ok (_, desc, _) =>
        let og_desc := meta_content (soup r) (og (py "og:description")) in
        let meta_desc :=
          meta_content (soup r) [(py "name", py "description")] in
        desc = if Str.truthy og_desc then og_desc
               else if Str.truthy meta_desc then meta_desc
               else py "Sin descripción"
    | Raise e =>
        exists e0, e = wrap e0
          /\ (parsed_text r = Raise e0
              \/ extract_title (soup r) = Raise e0
              \/ extract_img url (soup r) = Raise e0)
    end.
Proof.
  intros urllib net url r Hnet Hst.
  rewrite extract_steps, Hnet, Hst.
  destruct (parsed_text r) as [doc|e0] eqn:Ep;
    [|exists e0; split; [reflexivity | now left]].
  destruct (extract_title (soup r)) as [t|e0] eqn:Et;
    [|exists e0; split; [reflexivity | now right; left]].
  destruct (extract_img url (soup r)) as [i|e0] eqn:Ei;
    [|exists e0; split; [reflexivity | now right; right]].
  cbv zeta. rewrite extract_desc_cases. reflexivity.
Qed.

Lemma description_three_tier_witness :
  serve SiteExample.response SiteExample.url = Ok SiteExample.response
  /\ raise_for_status SiteExample.response = Ok tt
  /\ match extract (serve SiteExample.response) SiteExample.url with
     | Ok (_, desc, _) =>
         let og_desc :=
           meta_content (soup SiteExample.response)
             (og (py "og:description")) in
         let meta_desc :=
           meta_content (soup SiteExample.response)
             [(py "name", py "description")] in
         desc = if Str.truthy og_desc then og_desc
                else if Str.truthy meta_desc then meta_desc
                else py "Sin descripción"
     | Raise e =>
         exists e0, e = wrap e0
           /\ (parsed_text SiteExample.response = Raise e0
               \/ extract_title (soup SiteExample.response) = Raise e0
               \/ extract_img SiteExample.url (soup SiteExample.response)
                  = Raise e0)
     end.
Proof.
  assert (H1 : serve SiteExample.response SiteExample.url
               = Ok SiteExample.response) by reflexivity.
  assert (H2 : raise_for_status SiteExample.response = Ok tt)
    by reflexivity.
  refine (conj H1 (conj H2 _)).
  exact (description_three_tier python_urllib (serve SiteExample.response)
           SiteExample.url SiteExample.response H1 H2).
Defined.

(* ================================================================== *)
(** ** The image *)

(** C3, as stated, fails: with an og:image tag that is present but has
    an empty content, the image is not that (empty) trimmed content: the
    first img element is used. *)
Lemma og_image_empty_content_is_skipped :
  find ImageExamples.empty_og_doc (py "meta") (og (py "og:image"))
    = Some ImageExamples.empty_og_tag
  /\ extract (serve (page 200 (py "OK") ImageExamples.url
                       ImageExamples.empty_og_doc)) ImageExamples.url
     = Ok (default_title, default_desc, py "https://example.com/a/b.jpg")
  /\ py "https://example.com/a/b.jpg"
     <> Str.strip (get_default ImageExamples.empty_og_tag (py "content") []).
Proof.
  split; [reflexivity|]. split; [reflexivity|]. vm_compute. discriminate.
Qed.

(** C3, amended: for every fetched document the image of the result is
    the trimmed og:image content if that is non-empty; otherwise, if the
    first img element of the document has a non-empty src, that src
    joined by urljoin to the page's own URL, when the page was served
    at the requested URL (no redirect was followed); otherwise the
    empty string.  Extraction fails only if the parser rejects the
    body, the title step fails or urljoin raises.  With Python's
    urljoin an image taken from the img element is an absolute URL
    whenever the requested URL is an absolute HTTP or HTTPS URL, and
    the page https://example.com/a/ with [<img src="b.jpg">] yields
    https://example.com/a/b.jpg. *)
Theorem image_three_tier :
  (forall (urllib : Urllib) (net : Network) (url : str) (r : Response),
     net url = Ok r ->
     raise_for_status r = Ok tt ->
     match extract net url with
     | Ok (_, _, img) =>
         let og_image := meta_content (soup r) (og (py "og:image")) in
         if Str.truthy og_image then img = og_image
         else match first_img_src (soup r) with
              | Some src =>
                  if Str.truthy src
                  then resp_url r = url -> urljoin (resp_url r) src = Ok img
                  else img = []
              | None => img = []
              end
     | Raise e =>
         exists e0, e = wrap e0
           /\ (parsed_text r = Raise e0
               \/ extract_title (soup r) = Raise e0
               \/ exists src, first_img_src (soup r) = Some src
                              /\ (resp_url r = url ->
                                  urljoin (resp_url r) src = Raise e0))
     end)
  /\ (forall (net : Network) (url : str) (r : Response)
             (title desc img : str),
        net url = Ok r ->
        http_url url = true ->
        extract (urllib := python_urllib) net url = Ok (title, desc, img) ->
        meta_content (soup r) (og (py "og:image")) = [] ->
        img <> [] ->
        absolute_url img = true)
  /\ extract (serve ImageExamples.relative) ImageExamples.url
     = Ok (default_title, default_desc, py "https://example.com/a/b.jpg").
Proof.
  split; [|split; [|reflexivity]]; cycle 1.
  { intros net url r title desc img Hnet Hurl H Hog Hne.
    destruct (extract_returns_fields python_urllib net url r title desc
                img Hnet H) as (_ & _ & Hi).
    rewrite Hog in Hi. cbn [Str.truthy] in Hi.
    destruct (first_img_src (soup r)) as [src|]; [|contradiction].
    destruct (Str.truthy src); [|contradiction].
    exact (urljoin_absolute url src img Hurl Hi). }
  intros urllib net url r Hnet Hst.
  rewrite extract_steps, Hnet, Hst.
  destruct (parsed_text r) as [doc|e0] eqn:Ep;
    [|exists e0; split; [reflexivity | now left]].
  destruct (extract_title (soup r)) as [t|e0] eqn:Et;
    [|exists e0; split; [reflexivity | now right; left]].
  rewrite extract_img_cases. cbv zeta.
  destruct (Str.truthy (meta_content (soup r) (og (py "og:image")))) eqn:E;
    [reflexivity|].
  destruct (first_img_src (soup r)) as [src|] eqn:Es; [|reflexivity].
  destruct (Str.truthy src) eqn:Esrc; [|reflexivity].
  destruct (urljoin url src) as [i|e0] eqn:Ej.
  - intros Hu. now rewrite Hu.
  - exists e0. split; [reflexivity|]. right; right. exists src.
    split; [reflexivity|]. intros Hu. now rewrite Hu.
Qed.

Lemma image_three_tier_witness :
  serve ImageExamples.relative ImageExamples.url = Ok ImageExamples.relative
  /\ raise_for_status ImageExamples.relative = Ok tt
  /\ resp_url ImageExamples.relative = ImageExamples.url
  /\ http_url ImageExamples.url = true
  /\ meta_content (soup ImageExamples.relative) (og (py "og:image")) = []
  /\ py "https://example.com/a/b.jpg" <> []
  /\ urljoin (resp_url ImageExamples.relative) (py "b.jpg")
     = Ok (py "https://example.com/a/b.jpg")
  /\ absolute_url (py "https://example.com/a/b.jpg") = true.
Proof.
  assert (H1 : serve ImageExamples.relative ImageExamples.url
               = Ok ImageExamples.relative) by reflexivity.
  assert (H2 : raise_for_status ImageExamples.relative = Ok tt)
    by reflexivity.
  assert (H3 : resp_url ImageExamples.relative = ImageExamples.url)
    by reflexivity.
  assert (H4 : http_url ImageExamples.url = true)
    by (vm_compute; reflexivity).
  assert (H5 : meta_content (soup ImageExamples.relative)
                 (og (py "og:image")) = []) by reflexivity.
  assert (H6 : py "https://example.com/a/b.jpg" <> [])
    by (vm_compute; discriminate).
  refine (conj H1 (conj H2 (conj H3 (conj H4 (conj H5 (conj H6
            (conj _ _))))))).
  - pose proof (proj1 image_three_tier python_urllib
                  (serve ImageExamples.relative) ImageExamples.url
                  ImageExamples.relative H1 H2) as H.
    rewrite (proj2 (proj2 image_three_tier)) in H.
    exact (H H3).
  - exact (proj1 (proj2 image_three_tier)
             (serve ImageExamples.relative) ImageExamples.url
             ImageExamples.relative default_title default_desc
             (py "https://example.com/a/b.jpg")
             H1 H4 (proj2 (proj2 image_three_tier)) H5 H6).
Defined.

(** What the amended claim leaves out: line 60 joins the src to the
    requested URL, not to the URL of the page that answered.  When a
    redirect was followed the two differ, and the image is resolved
    against the wrong base: the page https://example.com/a/, reached
    from https://example.com/a, gives https://example.com/b.jpg. *)
Example redirected_page_joins_requested_url :
  resp_url ImageExamples.relative <> ImageExamples.requested_url
  /\ extract (serve ImageExamples.relative) ImageExamples.requested_url
     = Ok (default_title, default_desc, py "https://example.com/b.jpg")
  /\ urljoin (resp_url ImageExamples.relative) (py "b.jpg")
     = Ok (py "https://example.com/a/b.jpg").
Proof.
  split; [vm_compute; discriminate|]. split; vm_compute; reflexivity.
Qed.

(* ================================================================== *)
(** ** The fallback chains *)

(** The src of the first img element is tested as it is written: a src
    that is one space is not skipped, although its trimmed value is
    empty; it is joined to the page URL, and the page URL itself comes
    back as the image. *)
Example blank_img_src_is_not_skipped :
  first_img_src ImageExamples.blank_src_doc = Some (py " ")
  /\ Str.strip (py " ") = []
  /\ extract (serve (page 200 (py "OK") ImageExamples.url
                       ImageExamples.blank_src_doc)) ImageExamples.url
     = Ok (default_title, default_desc, py "https://example.com/a/").
Proof. repeat (split; [vm_compute; reflexivity|]). vm_compute. reflexivity. Qed.

(** C6, at a failing input: the document has no og:title and a title
    element without text, [<title></title>].  The title element is
    present and its trimmed value is empty, so the chain of the
    specification skips it and gives the default title; the code does
    not skip it: it raises. *)
Theorem empty_title_element_is_not_skipped :
  meta_content FailureExamples.empty_title_doc (og (py "og:title")) = []
  /\ soup_title FailureExamples.empty_title_doc = Some (title_tag [])
  /\ title_text FailureExamples.empty_title_doc = []
  /\ first_non_empty
       [meta_content FailureExamples.empty_title_doc (og (py "og:title"));
        title_text FailureExamples.empty_title_doc]
       default_title
     = py "Sin título"
  /\ extract (serve FailureExamples.empty_title) FailureExamples.url
     = Raise (wrap none_has_no_strip).
Proof. repeat (split; [vm_compute; reflexivity|]). vm_compute. reflexivity. Qed.

(* ================================================================== *)
(** ** The invariant of a result *)

Example absolute_url_ex :
  absolute_url (py "https://site.test/pic.png") = true
  /\ absolute_url (py "/pic.png") = false.
Proof. split; reflexivity. Qed.

(** C4, as stated, fails: an og:image content that is a relative
    reference is returned as it is written; the image of the result is
    then neither empty nor absolute, and it is not the reference
    resolved against the page URL. *)
Lemma relative_og_image_is_not_resolved :
  extract (serve (page 200 (py "OK") SiteExample.url
                    ImageExamples.rooted_og_doc)) SiteExample.url
    = Ok (default_title, default_desc, py "/pic.png")
  /\ py "/pic.png" <> []
  /\ absolute_url (py "/pic.png") = false
  /\ urljoin SiteExample.url (py "/pic.png")
     = Ok (py "https://site.test/pic.png").
Proof.
  split; [reflexivity|]. split; [vm_compute; discriminate|].
  split; reflexivity.
Qed.

(** C4, amended: in every result the title and the description are
    non-empty strings.  When the requested URL is an absolute HTTP or
    HTTPS URL, the image of a result is either the empty string, or the
    trimmed og:image content exactly as the page gives it (it is not
    resolved, so it may be relative), or an absolute URL made from the
    src of the first img element: when the page was served at the
    requested URL, that src joined by urljoin to the page's URL. *)
Theorem result_invariant :
  (forall (urllib : Urllib) (net : Network) (url : str)
          (title desc img : str),
     extract net url = Ok (title, desc, img) ->
     title <> [] /\ desc <> [])
  /\ (forall (net : Network) (url : str) (r : Response)
             (title desc img : str),
        net url = Ok r ->
        http_url url = true ->
        extract (urllib := python_urllib) net url = Ok (title, desc, img) ->
        img = []
        \/ img = meta_content (soup r) (og (py "og:image"))
        \/ (absolute_url img = true
            /\ exists src,
                 first_img_src (soup r) = Some src
                 /\ (resp_url r = url ->
                     urljoin (resp_url r) src = Ok img))).
Proof.
  split.
  - intros urllib net url title desc img H.
    exact (extract_returns_non_empty urllib net url title desc img H).
  - intros net url r title desc img Hnet Hurl H.
    destruct (extract_returns_fields python_urllib net url r title desc
                img Hnet H) as (_ & _ & Hi).
    destruct (Str.truthy (meta_content (soup r) (og (py "og:image"))));
      [now right; left|].
    destruct (first_img_src (soup r)) as [src|]; [|now left].
    destruct (Str.truthy src); [|now left].
    right; right. split.
    + exact (urljoin_absolute url src img Hurl Hi).
    + exists src. split; [reflexivity|]. intros Hu. now rewrite Hu.
Qed.

Lemma result_invariant_witness :
  serve SiteExample.response SiteExample.url = Ok SiteExample.response
  /\ http_url SiteExample.url = true
  /\ extract (serve SiteExample.response) SiteExample.url
     = Ok (py "Hello", py "World", py "https://site.test/pic.png")
  /\ resp_url SiteExample.response = SiteExample.url
  /\ (py "Hello" <> [] /\ py "World" <> [])
  /\ absolute_url (py "https://site.test/pic.png") = true
  /\ urljoin (resp_url SiteExample.response) (py "/pic.png")
     = Ok (py "https://site.test/pic.png").
Proof.
  assert (H1 : serve SiteExample.response SiteExample.url
               = Ok SiteExample.response) by reflexivity.
  assert (H2 : http_url SiteExample.url = true) by (vm_compute; reflexivity).
  assert (H3 : extract (serve SiteExample.response) SiteExample.url
               = Ok (py "Hello", py "World", py "https://site.test/pic.png"))
    by reflexivity.
  assert (H4 : resp_url SiteExample.response = SiteExample.url)
    by reflexivity.
  refine (conj H1 (conj H2 (conj H3 (conj H4 (conj _ _))))).
  - exact (proj1 result_invariant python_urllib
             (serve SiteExample.response) SiteExample.url
             (py "Hello") (py "World") (py "https://site.test/pic.png") H3).
  - destruct (proj2 result_invariant (serve SiteExample.response)
                SiteExample.url SiteExample.response
                (py "Hello") (py "World") (py "https://site.test/pic.png")
                H1 H2 H3) as [E | [E | [Ha (src & Hs & Hj)]]].
    + exfalso. vm_compute in E. discriminate E.
    + exfalso. vm_compute in E. discriminate E.
    + split; [exact Ha|].
      assert (Hsrc : src = py "/pic.png")
        by (vm_compute in Hs; injection Hs as <-; reflexivity).
      rewrite Hsrc in Hj. exact (Hj H4).
Defined.

(* ================================================================== *)
(** ** When extraction fails *)

Example not_found_raises :
  extract (serve FailureExamples.not_found) FailureExamples.url
  = Raise (wrap FailureExamples.not_found_error).
Proof. reflexivity. Qed.

Example empty_title_raises :
  extract (serve FailureExamples.empty_title) FailureExamples.url
  = Raise (wrap none_has_no_strip).
Proof. reflexivity. Qed.

(** C2, as stated, fails: a response whose status is not 2xx, here 300,
    is not a failure; its document is parsed and, as it carries no
    metadata, the result is filled with the defaults. *)
Lemma non_2xx_status_gives_default_result :
  ~ (200 <= status_code FailureExamples.multiple_choices < 300)%Z
  /\ extract (serve FailureExamples.multiple_choices) FailureExamples.url
     = Ok (default_title, default_desc, []).
Proof. split; [cbn; lia | reflexivity]. Qed.

(** C2, amended: extraction fails whenever the request raises (network
    error, timeout) or the response has a 4xx or 5xx status, and then no
    result is produced.  For a response with any other status,
    extraction fails when the parser rejects the body, and returns a
    complete result, with a non-empty title and description, when the
    parser accepts the body and the title step and the URL join do not
    raise. *)
Theorem extract_fails_on_failed_fetch :
  forall (urllib : Urllib) (net : Network) (url : str),
    match net url with
    | Raise e => extract net url = Raise (wrap e)
    | Ok r =>
        if ((400 <=? status_code r) && (status_code r <? 600))%Z
        then exists e, extract net url = Raise (wrap e)
                       /\ exc_cls e = HTTPError
        else match parsed_text r with
             | Raise e => extract net url = Raise (wrap e)
             | Ok doc =>
                 title_resolves doc = true ->
                 image_joins url doc = true ->
                 exists title desc img,
                   extract net url = Ok (title, desc, img)
                   /\ title <> [] /\ desc <> []
             end
    end.
Proof.
  intros urllib net url.
  destruct (net url) as [r|e] eqn:Hnet;
    [|now rewrite extract_steps, Hnet].
  destruct ((400 <=? status_code r) && (status_code r <? 600))%Z eqn:Hst.
  - destruct (raise_for_status_raises r) as (e & He & Hc).
    { apply andb_true_iff in Hst. lia. }
    exists e. now rewrite extract_steps, Hnet, He.
  - assert (Hok : raise_for_status r = Ok tt).
    { apply raise_for_status_ok. apply andb_false_iff in Hst. lia. }
    destruct (parsed_text r) as [doc|e] eqn:Hp;
      [|exact (rejected_markup_raises net url Hnet Hok Hp)].
    intros Ht Hi. pose proof (soup_parsed r Hp) as Hdoc.
    assert (Htitle : exists title, extract_title doc = Ok title).
    { rewrite extract_title_cases. unfold title_resolves in Ht.
      destruct (Str.truthy (meta_content doc (og (py "og:title"))));
        [eauto|].
      destruct (soup_title doc) as [t|]; [|eauto].
      destruct (string_of t); [eauto | discriminate]. }
    assert (Himg : exists img, extract_img url doc = Ok img).
    { rewrite extract_img_cases. unfold image_joins in Hi.
      destruct (Str.truthy (meta_content doc (og (py "og:image"))));
        [eauto|].
      destruct (first_img_src doc) as [src|]; [|eauto].
      destruct (Str.truthy src); [|eauto].
      destruct (urljoin url src); [eauto | discriminate]. }
    destruct Htitle as (title & Htitle). destruct Himg as (img & Himg).
    assert (Hret : extract net url = Ok (title, extract_desc doc, img))
      by now rewrite extract_steps, Hnet, Hok, Hp, Hdoc, Htitle, Himg.
    exists title, (extract_desc doc), img.
    split; [exact Hret|].
    exact (extract_returns_non_empty urllib net url _ _ _ Hret).
Qed.

Lemma extract_fails_on_failed_fetch_witness :
  title_resolves SiteExample.doc = true
  /\ image_joins SiteExample.url SiteExample.doc = true
  /\ exists title desc img,
       extract (serve SiteExample.response) SiteExample.url
       = Ok (title, desc, img)
       /\ title <> [] /\ desc <> [].
Proof.
  assert (H1 : title_resolves SiteExample.doc = true) by reflexivity.
  assert (H2 : image_joins SiteExample.url SiteExample.doc = true)
    by reflexivity.
  refine (conj H1 (conj H2 _)).
  exact (extract_fails_on_failed_fetch python_urllib
           (serve SiteExample.response) SiteExample.url H1 H2).
Defined.

Example timeout_raises :
  extract FailureExamples.unreachable FailureExamples.url
  = Raise (wrap FailureExamples.timeout_error).
Proof. reflexivity. Qed.

(* ================================================================== *)
(** ** The kind of error raised *)

(** C5, as stated, fails: a failed fetch (404) and a fault of the
    extraction (a title element without a string) raise errors of one
    and the same class, the builtin Exception; there is no FetchError
    and no ParseError to tell apart. *)
Lemma fetch_and_extraction_faults_share_one_class :
  extract (serve FailureExamples.not_found) FailureExamples.url
    = Raise (wrap FailureExamples.not_found_error)
  /\ extract (serve FailureExamples.empty_title) FailureExamples.url
     = Raise (wrap none_has_no_strip)
  /\ exc_cls (wrap FailureExamples.not_found_error)
     = exc_cls (wrap none_has_no_strip).
Proof.
  split; [vm_compute; reflexivity|].
  split; [vm_compute; reflexivity|].
  unfold wrap, exc_cls. reflexivity.
Qed.

(** C5, amended: extraction raises one kind of error.  Whatever fails,
    the request, the status check, the parsing of the body, the title
    step or the image step, the error raised is a builtin Exception
    whose text is the fixed prefix followed by the text of the original
    error; the original error is kept only as that text and as the
    context of the new one. *)
Theorem extract_raises_one_kind :
  forall (urllib : Urllib) (net : Network) (url : str) (e : pyexc),
    extract net url = Raise e ->
    exc_cls e = Exception
    /\ exists e0,
         e = PyExc Exception (py "Error extrayendo metadata: " ++ exc_str e0)
               (Some e0)
         /\ (net url = Raise e0
             \/ exists r, net url = Ok r
                  /\ (raise_for_status r = Raise e0
                      \/ parsed_text r = Raise e0
                      \/ extract_title (soup r) = Raise e0
                      \/ extract_img url (soup r) = Raise e0)).
Proof.
  intros urllib net url e. rewrite extract_steps.
  destruct (net url) as [r|e0] eqn:Hnet.
  - destruct (raise_for_status r) as [[]|e0] eqn:Hst.
    + destruct (parsed_text r) as [doc|e0] eqn:Hp.
      * destruct (extract_title (soup r)) as [t|e0] eqn:Ht.
        -- destruct (extract_img url (soup r)) as [i|e0] eqn:Hi;
             [discriminate|].
           intros H; injection H as <-. split; [reflexivity|].
           exists e0. split; [reflexivity|]. right. exists r. auto 6.
        -- intros H; injection H as <-. split; [reflexivity|].
           exists e0. split; [reflexivity|]. right. exists r. auto 6.
      * intros H; injection H as <-. split; [reflexivity|].
        exists e0. split; [reflexivity|]. right. exists r. auto.
    + intros H; injection H as <-. split; [reflexivity|].
      exists e0. split; [reflexivity|]. right. exists r. auto.
  - intros H; injection H as <-. split; [reflexivity|].
    exists e0. split; [reflexivity|]. now left.
Qed.

Lemma extract_raises_one_kind_witness :
  extract (serve FailureExamples.empty_title) FailureExamples.url
    = Raise (wrap none_has_no_strip)
  /\ exc_cls (wrap none_has_no_strip) = Exception
  /\ exists e0,
       wrap none_has_no_strip
       = PyExc Exception (py "Error extrayendo metadata: " ++ exc_str e0)
           (Some e0)
       /\ (serve FailureExamples.empty_title FailureExamples.url = Raise e0
           \/ exists r,
                serve FailureExamples.empty_title FailureExamples.url = Ok r
                /\ (raise_for_status r = Raise e0
                    \/ parsed_text r = Raise e0
                    \/ extract_title (soup r) = Raise e0
                    \/ extract_img FailureExamples.url (soup r) = Raise e0)).
Proof.
  assert (H : extract (serve FailureExamples.empty_title)
                FailureExamples.url = Raise (wrap none_has_no_strip))
    by reflexivity.
  refine (conj H _).
  exact (extract_raises_one_kind python_urllib
           (serve FailureExamples.empty_title) FailureExamples.url
           (wrap none_has_no_strip) H).
Defined.

(* ================================================================== *)
(** ** Escaping in the generated page *)

Lemma replace_one_char (s : str) (c : N) (new : str) :
  Str.replace s [c] new = flat_map (fun x => if x =? c then new else [x]) s.
Proof.
  unfold Str.replace. induction s as [|x s IH]; [reflexivity|].
  cbn [Str.replace_from Str.startswith length Nat.sub flat_map].
  rewrite andb_true_r, IH, (N.eqb_sym c x).
  destruct (x =? c); reflexivity.
Qed.

Lemma escape_is_html_escape_quotes (s : str) :
  Str.replace (Str.replace s q (py "&quot;")) (py "'") (py "&#39;")
  = html_escape_quotes s.
Proof.
  change q with [34]. change (py "'") with [39].
  rewrite !replace_one_char. unfold html_escape_quotes.
  induction s as [|x s IH]; [reflexivity|].
  cbn [flat_map]. rewrite flat_map_app, IH. f_equal.
  destruct (x =? 34) eqn:E34; [reflexivity|].
  cbn [flat_map]. rewrite app_nil_r. reflexivity.
Qed.

Lemma html_escape_quotes_has_no_quote (s : str) :
  Str.contains 34 (html_escape_quotes s) = false
  /\ Str.contains 39 (html_escape_quotes s) = false.
Proof.
  unfold Str.contains, html_escape_quotes.
  induction s as [|x s [IH1 IH2]]; [split; reflexivity|].
  cbn [flat_map]. rewrite !existsb_app, IH1, IH2, !orb_false_r.
  destruct (x =? 34) eqn:E34; [split; reflexivity|].
  destruct (x =? 39) eqn:E39; [split; reflexivity|].
  cbn [existsb]. rewrite !orb_false_r, (N.eqb_sym 34 x), (N.eqb_sym 39 x).
  now rewrite E34, E39.
Qed.

(** C9: for every title and description, the generated page is the
    template filled with the two strings escaped, every double quote
    replaced by [&quot;] and every single quote by [&#39;]; the embedded
    strings contain no double or single quote any more. *)
Theorem generate_html_escapes_quotes :
  forall visible_url redirect_url title desc img : str,
    generate_html visible_url redirect_url title desc img
    = template visible_url redirect_url
        (html_escape_quotes title) (html_escape_quotes desc) img
    /\ Str.contains 34 (html_escape_quotes title) = false
    /\ Str.contains 39 (html_escape_quotes title) = false
    /\ Str.contains 34 (html_escape_quotes desc) = false
    /\ Str.contains 39 (html_escape_quotes desc) = false.
Proof.
  intros visible_url redirect_url title desc img.
  split.
  - unfold generate_html. now rewrite !escape_is_html_escape_quotes.
  - destruct (html_escape_quotes_has_no_quote title) as [H1 H2].
    destruct (html_escape_quotes_has_no_quote desc) as [H3 H4].
    auto.
Qed.

Example escape_ex :
  html_escape_quotes [73; 116; 39; 115; 32; 34; 120; 34]
  = py "It&#39;s &quot;x&quot;".
Proof. reflexivity. Qed.

(* ================================================================== *)
(** ** The outcome of a deployment *)

(** C8, as stated, fails: with nothing to commit the function returns
    False, and when git push fails it returns False as well; the caller
    receives the same value for the no-op and for the failure. *)
Lemma no_op_and_failure_return_the_same :
  outcome_of DeployExamples.clean_tree default_commit_message
    = NothingToCommit
  /\ outcome_of DeployExamples.no_remote default_commit_message
     = GitFailed (PyExc CalledProcessError
                    (DeployExamples.describe git_push 128) None)
  /\ fst (git_push_to_github DeployExamples.clean_tree
            default_commit_message []) = Ok false
  /\ fst (git_push_to_github DeployExamples.no_remote
            default_commit_message []) = Ok false.
Proof. repeat (split; [vm_compute; reflexivity|]). vm_compute. reflexivity. Qed.

(** C8, amended: the deployment reports a boolean to its caller: True
    after a successful push, False both when there is nothing to commit
    and when a git command fails; the no-op and the failure differ only
    in the text printed.  (When git cannot be started the exception
    propagates.) *)
Theorem git_push_reports_a_boolean :
  forall (sh : Shell) (commit_message : str) (out : list str),
    git_push_to_github sh commit_message out =
    match outcome_of sh commit_message with
    | Pushed => (Ok true, out ++ [msg_start] ++ msgs_pushed)
    | NothingToCommit => (Ok false, out ++ [msg_start; msg_nothing])
    | GitFailed e => (Ok false, out ++ [msg_start] ++ msgs_failed e)
    | NotStarted e => (Raise e, out ++ [msg_start])
    end.
Proof.
  intros sh commit_message out.
  unfold git_push_to_github, outcome_of, git_steps, io_try, io_bind, lift,
    print, io_ret, bind, msgs_failed, msgs_pushed, msg_start, msg_nothing.
  destruct (subprocess_run sh git_add) as [p1|e];
    [|destruct (is_CalledProcessError e); cbv beta iota;
      rewrite <- ?app_assoc; cbn [app]; reflexivity].
  destruct (subprocess_run sh git_status) as [p2|e];
    [|destruct (is_CalledProcessError e); cbv beta iota;
      rewrite <- ?app_assoc; cbn [app]; reflexivity].
  destruct (Str.truthy (Str.strip (stdout p2))); cbv beta iota delta [negb];
    [|rewrite <- ?app_assoc; cbn [app]; reflexivity].
  destruct (subprocess_run sh (git_commit commit_message)) as [p3|e];
    [|destruct (is_CalledProcessError e); cbv beta iota;
      rewrite <- ?app_assoc; cbn [app]; reflexivity].
  destruct (subprocess_run sh git_push) as [p4|e];
    [|destruct (is_CalledProcessError e); cbv beta iota;
      rewrite <- ?app_assoc; cbn [app]; reflexivity].
  cbv beta iota. rewrite <- ?app_assoc. cbn [app]. reflexivity.
Qed.

Example changed_tree_is_pushed :
  fst (git_push_to_github DeployExamples.changed_tree
         default_commit_message []) = Ok true.
Proof. vm_compute. reflexivity. Qed.

(* ================================================================== *)
(** ** Loading the configuration *)

(** C10: load_config never raises.  Whatever the file system holds and
    whatever the parser does, it returns: None when the file is absent,
    when it cannot be read and when its content does not parse; the
    parsed value when the file exists, is read and parses. *)
Theorem load_config_never_raises :
  forall (json : Json) (fs : FileSystem),
    load_config fs =
    Ok (if path_exists fs config_path then
          match read_text fs config_path with
          | Raise _ => PyNone
          | Ok text =>
            match json_loads text with
            | Raise _ => PyNone
            | Ok v => v
            end
          end
        else PyNone).
Proof.
  intros json fs. unfold load_config, try_except, bind.
  destruct (path_exists fs config_path); [|reflexivity].
  destruct (read_text fs config_path) as [text|e]; [|reflexivity].
  destruct (json_loads text); reflexivity.
Qed.

(* ================================================================== *)
(** * Further properties *)

(** ** Trimming *)

Lemma lstrip_by_idempotent (p : N -> bool) (s : str) :
  Str.lstrip_by p (Str.lstrip_by p s) = Str.lstrip_by p s.
Proof.
  induction s as [|c s IH]; [reflexivity|].
  cbn [Str.lstrip_by]. destruct (p c) eqn:E; [exact IH|].
  cbn [Str.lstrip_by]. now rewrite E.
Qed.

Lemma lstrip_by_snoc (p : N -> bool) (l : str) (x : N) :
  p x = false -> Str.lstrip_by p (l ++ [x]) = Str.lstrip_by p l ++ [x].
Proof.
  intros Hx. induction l as [|c l IH]; cbn [app Str.lstrip_by].
  - now rewrite Hx.
  - destruct (p c); [exact IH | reflexivity].
Qed.

Lemma lstrip_by_head (p : N -> bool) (s : str) :
  Str.lstrip_by p s = []
  \/ exists x t, Str.lstrip_by p s = x :: t /\ p x = false.
Proof.
  induction s as [|c s IH]; [now left|].
  cbn [Str.lstrip_by]. destruct (p c) eqn:E; [exact IH|].
  right. now exists c, s.
Qed.

Lemma rstrip_by_cons (p : N -> bool) (x : N) (t : str) :
  p x = false -> Str.rstrip_by p (x :: t) = x :: Str.rstrip_by p t.
Proof.
  intros Hx. unfold Str.rstrip_by. cbn [rev].
  now rewrite lstrip_by_snoc, rev_unit.
Qed.

Lemma rstrip_by_idempotent (p : N -> bool) (s : str) :
  Str.rstrip_by p (Str.rstrip_by p s) = Str.rstrip_by p s.
Proof.
  unfold Str.rstrip_by. now rewrite rev_involutive, lstrip_by_idempotent.
Qed.

Lemma strip_idempotent (s : str) : Str.strip (Str.strip s) = Str.strip s.
Proof.
  unfold Str.strip.
  destruct (lstrip_by_head Str.isspace s) as [E | (x & t & E & Hx)];
    rewrite E.
  - reflexivity.
  - rewrite (rstrip_by_cons _ _ _ Hx). cbn [Str.lstrip_by]. rewrite Hx.
    now rewrite (rstrip_by_cons _ _ _ Hx), rstrip_by_idempotent.
Qed.

Lemma meta_content_trimmed (soup : BeautifulSoup) (attrs : list (str * str)) :
  Str.strip (meta_content soup attrs) = meta_content soup attrs.
Proof.
  unfold meta_content.
  destruct (find soup (py "meta") attrs);
    [apply strip_idempotent | reflexivity].
Qed.

Lemma title_text_trimmed (soup : BeautifulSoup) :
  Str.strip (title_text soup) = title_text soup.
Proof.
  unfold title_text. destruct (soup_title soup) as [t|]; [|reflexivity].
  destruct (string_of t); [apply strip_idempotent | reflexivity].
Qed.

Lemma first_non_empty_trimmed (candidates : list str) (default : str) :
  Forall (fun c => Str.strip c = c) candidates ->
  Str.strip default = default ->
  Str.strip (first_non_empty candidates default)
  = first_non_empty candidates default.
Proof.
  intros Hc Hd. induction Hc as [|c rest Hx _ IH]; [exact Hd|].
  cbn [first_non_empty]. destruct (Str.truthy c); [exact Hx | exact IH].
Qed.

(** X1: the title and the description of every result are trimmed:
    stripping them again changes nothing, so neither starts or ends
    with white space. *)
Theorem extract_title_and_description_are_trimmed :
  forall (urllib : Urllib) (net : Network) (url : str)
         (title desc img : str),
    extract net url = Ok (title, desc, img) ->
    Str.strip title = title /\ Str.strip desc = desc.
Proof.
  intros urllib net url title desc img H.
  destruct (extract_returns_inv net url H) as (r & Hnet & _).
  destruct (extract_returns_fields urllib net url r title desc img Hnet H)
    as (-> & -> & _).
  split; apply first_non_empty_trimmed;
    repeat constructor;
    try apply meta_content_trimmed; try apply title_text_trimmed;
    vm_compute; reflexivity.
Qed.

Lemma extract_title_and_description_are_trimmed_witness :
  extract (serve SiteExample.response) SiteExample.url
    = Ok (py "Hello", py "World", py "https://site.test/pic.png")
  /\ Str.strip (py "Hello") = py "Hello"
  /\ Str.strip (py "World") = py "World".
Proof.
  assert (H : extract (serve SiteExample.response) SiteExample.url
              = Ok (py "Hello", py "World", py "https://site.test/pic.png"))
    by (vm_compute; reflexivity).
  refine (conj H _).
  exact (extract_title_and_description_are_trimmed python_urllib
           (serve SiteExample.response) SiteExample.url
           (py "Hello") (py "World") (py "https://site.test/pic.png") H).
Defined.

(* ================================================================== *)
(** ** More on the escaping of the page *)

Lemma html_escape_quotes_id (s : str) :
  Str.contains 34 s = false -> Str.contains 39 s = false ->
  html_escape_quotes s = s.
Proof.
  unfold Str.contains, html_escape_quotes.
  induction s as [|x s IH]; [reflexivity|].
  cbn [existsb flat_map]. intros H1 H2.
  apply orb_false_iff in H1, H2. destruct H1 as [E1 H1], H2 as [E2 H2].
  rewrite (N.eqb_sym x 34), E1, (N.eqb_sym x 39), E2. cbn [app].
  now rewrite IH.
Qed.

(** X2: a title and a description without any double or single quote
    are embedded exactly as they are: quotes are the only characters
    the page generation escapes (a [<], a [>] or an [&] passes
    through). *)
Theorem generate_html_leaves_quote_free_text :
  forall visible_url redirect_url title desc img : str,
    Str.contains 34 title = false -> Str.contains 39 title = false ->
    Str.contains 34 desc = false -> Str.contains 39 desc = false ->
    generate_html visible_url redirect_url title desc img
    = template visible_url redirect_url title desc img.
Proof.
  intros v r t d i Ht1 Ht2 Hd1 Hd2. unfold generate_html.
  rewrite !escape_is_html_escape_quotes.
  now rewrite (html_escape_quotes_id _ Ht1 Ht2),
    (html_escape_quotes_id _ Hd1 Hd2).
Qed.

Lemma generate_html_leaves_quote_free_text_witness :
  Str.contains 34 (py "<b>R&D</b>") = false
  /\ Str.contains 39 (py "<b>R&D</b>") = false
  /\ Str.contains 34 (py "a < b") = false
  /\ Str.contains 39 (py "a < b") = false
  /\ generate_html (py "https://a.test/") (py "https://b.test/")
       (py "<b>R&D</b>") (py "a < b") []
     = template (py "https://a.test/") (py "https://b.test/")
         (py "<b>R&D</b>") (py "a < b") [].
Proof.
  assert (H1 : Str.contains 34 (py "<b>R&D</b>") = false) by reflexivity.
  assert (H2 : Str.contains 39 (py "<b>R&D</b>") = false) by reflexivity.
  assert (H3 : Str.contains 34 (py "a < b") = false) by reflexivity.
  assert (H4 : Str.contains 39 (py "a < b") = false) by reflexivity.
  refine (conj H1 (conj H2 (conj H3 (conj H4 _)))).
  exact (generate_html_leaves_quote_free_text (py "https://a.test/")
           (py "https://b.test/") (py "<b>R&D</b>") (py "a < b") []
           H1 H2 H3 H4).
Defined.

(** X3: escaping is idempotent: a title and a description that were
    already escaped give the same page as the original ones; nothing is
    escaped twice. *)
Theorem generate_html_escaping_is_idempotent :
  forall visible_url redirect_url title desc img : str,
    generate_html visible_url redirect_url
      (html_escape_quotes title) (html_escape_quotes desc) img
    = generate_html visible_url redirect_url title desc img.
Proof.
  intros v r t d i. unfold generate_html.
  rewrite !escape_is_html_escape_quotes.
  destruct (html_escape_quotes_has_no_quote t) as [Ht1 Ht2].
  destruct (html_escape_quotes_has_no_quote d) as [Hd1 Hd2].
  now rewrite (html_escape_quotes_id _ Ht1 Ht2),
    (html_escape_quotes_id _ Hd1 Hd2).
Qed.

(* ================================================================== *)
(** ** Git commands *)

Lemma subprocess_run_raises (sh : Shell) (args : list str) (e : pyexc) :
  subprocess_run sh args = Raise e ->
  is_CalledProcessError e = true \/ launch sh args = Raise e.
Proof.
  unfold subprocess_run, bind.
  destruct (launch sh args) as [p|e0]; [|now right].
  destruct (returncode p =? 0)%Z; [discriminate|].
  intros H; injection H as <-. now left.
Qed.

Lemma subprocess_run_returns (sh : Shell) (args : list str)
    (p : CompletedProcess) :
  subprocess_run sh args = Ok p <->
  launch sh args = Ok p /\ returncode p = 0%Z.
Proof.
  unfold subprocess_run, bind.
  destruct (launch sh args) as [p0|e0].
  - destruct (Z.eqb_spec (returncode p0) 0); split.
    + intros H; injection H as <-. now split.
    + now intros [H _].
    + discriminate.
    + intros [H Hz]. injection H as ->. contradiction.
  - split; [discriminate | now intros [H _]].
Qed.

(** X4: a git command that exits with a non-zero status never makes
    git_push_to_github raise: when it raises, the exception is not a
    CalledProcessError but the error of a command that could not be
    started, and the start message was already printed. *)
Theorem git_push_raises_only_launch_errors :
  forall (sh : Shell) (commit_message : str) (out log : list str)
         (e : pyexc),
    git_push_to_github sh commit_message out = (Raise e, log) ->
    is_CalledProcessError e = false
    /\ log = out ++ [msg_start]
    /\ (launch sh git_add = Raise e
        \/ launch sh git_status = Raise e
        \/ launch sh (git_commit commit_message) = Raise e
        \/ launch sh git_push = Raise e).
Proof.
  intros sh commit_message out log e.
  unfold git_push_to_github, io_try, io_bind, lift, print, io_ret, msg_start.
  destruct (subprocess_run sh git_add) as [p1|e1] eqn:E1.
  2:{ destruct (is_CalledProcessError e1) eqn:C; cbv beta iota;
        [discriminate|].
      intros H; injection H as <- <-.
      destruct (subprocess_run_raises _ _ _ E1) as [F|F]; [congruence|].
      split; [exact C|]. split; [reflexivity|]. auto 6. }
  destruct (subprocess_run sh git_status) as [p2|e2] eqn:E2.
  2:{ destruct (is_CalledProcessError e2) eqn:C; cbv beta iota;
        [discriminate|].
      intros H; injection H as <- <-.
      destruct (subprocess_run_raises _ _ _ E2) as [F|F]; [congruence|].
      split; [exact C|]. split; [reflexivity|]. auto 6. }
  destruct (Str.truthy (Str.strip (stdout p2))); cbv beta iota delta [negb];
    [|discriminate].
  destruct (subprocess_run sh (git_commit commit_message)) as [p3|e3] eqn:E3.
  2:{ destruct (is_CalledProcessError e3) eqn:C; cbv beta iota;
        [discriminate|].
      intros H; injection H as <- <-.
      destruct (subprocess_run_raises _ _ _ E3) as [F|F]; [congruence|].
      split; [exact C|]. split; [reflexivity|]. auto 6. }
  destruct (subprocess_run sh git_push) as [p4|e4] eqn:E4.
  2:{ destruct (is_CalledProcessError e4) eqn:C; cbv beta iota;
        [discriminate|].
      intros H; injection H as <- <-.
      destruct (subprocess_run_raises _ _ _ E4) as [F|F]; [congruence|].
      split; [exact C|]. split; [reflexivity|]. auto 6. }
  discriminate.
Qed.

Lemma git_push_raises_only_launch_errors_witness :
  git_push_to_github GitExamples.no_git default_commit_message []
    = (Raise GitExamples.not_installed, [] ++ [msg_start])
  /\ is_CalledProcessError GitExamples.not_installed = false
  /\ [] ++ [msg_start] = [] ++ [msg_start]
  /\ (launch GitExamples.no_git git_add = Raise GitExamples.not_installed
      \/ launch GitExamples.no_git git_status
         = Raise GitExamples.not_installed
      \/ launch GitExamples.no_git (git_commit default_commit_message)
         = Raise GitExamples.not_installed
      \/ launch GitExamples.no_git git_push
         = Raise GitExamples.not_installed).
Proof.
  assert (H : git_push_to_github GitExamples.no_git default_commit_message []
              = (Raise GitExamples.not_installed, [] ++ [msg_start]))
    by (vm_compute; reflexivity).
  refine (conj H _).
  exact (git_push_raises_only_launch_errors GitExamples.no_git
           default_commit_message [] ([] ++ [msg_start])
           GitExamples.not_installed H).
Defined.

(** X5: check_git answers by the exit status of [git --version] and
    answers False, raising nothing, when git cannot be found;
    is_git_repo answers by the exit status of [git rev-parse --git-dir]
    but does not catch a git that cannot be found: the error
    propagates. *)
Theorem check_git_catches_missing_git_is_git_repo_does_not :
  forall (sh : Shell),
    (forall p, launch sh git_version = Ok p ->
               check_git sh = Ok (returncode p =? 0)%Z)
    /\ (forall e, launch sh git_version = Raise e ->
                  is_FileNotFoundError e = true ->
                  check_git sh = Ok false)
    /\ (forall p, launch sh git_rev_parse = Ok p ->
                  is_git_repo sh = Ok (returncode p =? 0)%Z)
    /\ (forall e, launch sh git_rev_parse = Raise e ->
                  is_FileNotFoundError e = true ->
                  is_git_repo sh = Raise e).
Proof.
  intros sh. unfold check_git, is_git_repo, try_except, subprocess_run, bind,
    is_CalledProcessError, is_FileNotFoundError.
  repeat split.
  - intros p ->. destruct (returncode p =? 0)%Z; reflexivity.
  - intros e -> ->. reflexivity.
  - intros p ->. destruct (returncode p =? 0)%Z; reflexivity.
  - intros e -> He. destruct e as [c msg ctx]. cbn [exc_cls] in *.
    destruct c; try discriminate. reflexivity.
Qed.

Lemma check_git_catches_missing_git_is_git_repo_does_not_witness :
  launch GitExamples.no_git git_version = Raise GitExamples.not_installed
  /\ is_FileNotFoundError GitExamples.not_installed = true
  /\ check_git GitExamples.no_git = Ok false
  /\ launch GitExamples.no_git git_rev_parse
     = Raise GitExamples.not_installed
  /\ is_git_repo GitExamples.no_git = Raise GitExamples.not_installed.
Proof.
  assert (H1 : launch GitExamples.no_git git_version
               = Raise GitExamples.not_installed) by reflexivity.
  assert (H2 : is_FileNotFoundError GitExamples.not_installed = true)
    by reflexivity.
  assert (H3 : launch GitExamples.no_git git_rev_parse
               = Raise GitExamples.not_installed) by reflexivity.
  pose proof (check_git_catches_missing_git_is_git_repo_does_not
                GitExamples.no_git) as (_ & Hc & _ & Hr).
  exact (conj H1 (conj H2 (conj (Hc _ H1 H2) (conj H3 (Hr _ H3 H2))))).
Defined.

(* ================================================================== *)
(** ** Setting up a repository *)

Ltac run_proc :=
  cbv beta iota
    delta [pbind say input ret call call_io sys_exit proc_try with_disk
           open_write stdin printed disk fst snd negb
           catch_CalledProcessError catch_Exception].

(** X6: setup_git_repo answers True exactly when [git init] succeeds,
    the user types a URL that is not blank, and [git remote add origin]
    with the trimmed URL and [git branch -M main] both succeed. *)
Theorem setup_git_repo_succeeds_iff :
  forall (m : Machine) (w : World),
    fst (setup_git_repo m w) = Return true <->
    exists line rest p1 p2 p3,
      subprocess_run (shell m) git_init = Ok p1
      /\ stdin w = line :: rest
      /\ Str.strip line <> []
      /\ subprocess_run (shell m) (git_remote_add (Str.strip line)) = Ok p2
      /\ subprocess_run (shell m) git_branch_main = Ok p3.
Proof.
  intros m [inp out fs]. unfold setup_git_repo. run_proc.
  destruct (subprocess_run (shell m) git_init) as [p1|e1]; run_proc.
  2:{ split.
      - destruct (is_CalledProcessError e1); run_proc; discriminate.
      - intros (? & ? & ? & ? & ? & H & _). discriminate. }
  destruct inp as [|line rest]; run_proc.
  { split; [discriminate|].
    intros (? & ? & ? & ? & ? & _ & H & _). discriminate. }
  destruct (Str.truthy (Str.strip line)) eqn:Et; run_proc.
  2:{ split; [discriminate|].
      intros (l & r & ? & ? & ? & _ & H & Hne & _).
      injection H as <- <-. apply truthy_false in Et. contradiction. }
  destruct (subprocess_run (shell m) (git_remote_add (Str.strip line)))
    as [p2|e2] eqn:E2; run_proc.
  2:{ split.
      - destruct (is_CalledProcessError e2); run_proc; discriminate.
      - intros (l & r & ? & ? & ? & _ & H & _ & H2 & _).
        injection H as <- <-. congruence. }
  destruct (subprocess_run (shell m) git_branch_main) as [p3|e3] eqn:E3;
    run_proc.
  2:{ split.
      - destruct (is_CalledProcessError e3); run_proc; discriminate.
      - intros (? & ? & ? & ? & ? & _ & _ & _ & _ & H). discriminate. }
  split; [|reflexivity]. intros _.
  exists line, rest, p1, p2, p3. apply truthy_true in Et. auto.
Qed.

(* ================================================================== *)
(** ** Saving and loading the configuration *)

Lemma config_path_is_not_index :
  Str.eqb config_path (py "index.html") = false
  /\ Str.eqb (py "index.html") config_path = false.
Proof. split; vm_compute; reflexivity. Qed.

Lemma load_config_after_write (json : Json) (fs : FileSystem) (text : str)
    (v : pyval) :
  json_loads text = Ok v ->
  load_config (write_file config_path text fs) = Ok v.
Proof.
  intros H. unfold load_config, try_except, bind, write_file.
  cbn [path_exists read_text]. rewrite str_eqb_refl, H. reflexivity.
Qed.

(** X7: saving then loading gives the pair back.  When the
    configuration file can be written and the JSON library reads back
    what it wrote for the pair, save_config returns normally and a
    following load_config returns the two URLs under their keys;
    nothing is printed or read. *)
Theorem save_config_then_load_config :
  forall (json : Json) (rt : Runtime) (m : Machine)
         (visible_url redirect_url : str) (w : World),
    write_error m config_path = None ->
    json_loads (json_dump (config_of visible_url redirect_url))
      = Ok (config_of visible_url redirect_url) ->
    exists w',
      save_config m visible_url redirect_url w = (Return tt, w')
      /\ load_config (disk w')
         = Ok (PyDict [(py "last_visible_url", PyStr visible_url);
                       (py "last_redirect_url", PyStr redirect_url)])
      /\ stdin w' = stdin w /\ printed w' = printed w.
Proof.
  intros json rt m v r w Hw Hj.
  unfold save_config, open_write. rewrite Hw.
  eexists. split; [reflexivity|]. cbn [disk stdin printed].
  split; [|split; reflexivity].
  now apply load_config_after_write.
Qed.

Lemma save_config_then_load_config_witness :
  write_error MainExamples.machine config_path = None
  /\ json_loads (json_dump (config_of MainExamples.visible
                              MainExamples.hidden))
     = Ok (config_of MainExamples.visible MainExamples.hidden)
  /\ exists w',
       save_config MainExamples.machine MainExamples.visible
         MainExamples.hidden MainExamples.first_run = (Return tt, w')
       /\ load_config (disk w')
          = Ok (PyDict [(py "last_visible_url", PyStr MainExamples.visible);
                        (py "last_redirect_url", PyStr MainExamples.hidden)])
       /\ stdin w' = stdin MainExamples.first_run
       /\ printed w' = printed MainExamples.first_run.
Proof.
  assert (H1 : write_error MainExamples.machine config_path = None)
    by reflexivity.
  assert (H2 : json_loads (json_dump (config_of MainExamples.visible
                                        MainExamples.hidden))
               = Ok (config_of MainExamples.visible MainExamples.hidden))
    by (vm_compute; reflexivity).
  refine (conj H1 (conj H2 _)).
  exact (save_config_then_load_config json_model example_runtime
           MainExamples.machine MainExamples.visible MainExamples.hidden
           MainExamples.first_run H1 H2).
Defined.

(* ================================================================== *)
(** ** Runs of the script: what touches the files *)

Section ProcLaws.

Context {A B : Type}.

Lemma pbind_returns (p : Proc A) (k : A -> Proc B) (w w' : World) (b : B) :
  pbind p k w = (Return b, w') ->
  exists a w1, p w = (Return a, w1) /\ k a w1 = (Return b, w').
Proof.
  unfold pbind. destruct (p w) as [[a|s] w1]; [|discriminate].
  intros H. now exists a, w1.
Qed.

Lemma pbind_agrees (p : Proc A) (k k' : A -> Proc B) (w : World) :
  (forall a w1, p w = (Return a, w1) -> k a w1 = k' a w1) ->
  pbind p k w = pbind p k' w.
Proof.
  intros H. unfold pbind. destruct (p w) as [[a|s] w1]; [|reflexivity].
  now apply H.
Qed.

Lemma keeps_ret (a : A) : keeps_disk (ret a).
Proof. intros w. reflexivity. Qed.

Lemma keeps_exit (code : Z) : keeps_disk (@sys_exit A code).
Proof. intros w. reflexivity. Qed.

Lemma keeps_call (r : result A) : keeps_disk (call r).
Proof. intros w. unfold call. destruct r; reflexivity. Qed.

Lemma keeps_call_io (io : IO A) : keeps_disk (call_io io).
Proof.
  intros w. unfold call_io. destruct (io (printed w)) as [[a|e] out];
    reflexivity.
Qed.

Lemma keeps_with_disk (f : FileSystem -> result A) :
  keeps_disk (with_disk f).
Proof. intros w. unfold with_disk, call. destruct (f (disk w)); reflexivity. Qed.

Lemma keeps_bind (p : Proc A) (k : A -> Proc B) :
  keeps_disk p -> (forall a, keeps_disk (k a)) -> keeps_disk (pbind p k).
Proof.
  intros Hp Hk w. unfold pbind. specialize (Hp w).
  destruct (p w) as [[a|s] w1]; cbn [snd] in *; [|exact Hp].
  now rewrite Hk.
Qed.

Lemma keeps_try (body : Proc A) (catches : signal -> bool)
    (handler : signal -> Proc A) :
  keeps_disk body -> (forall s, keeps_disk (handler s)) ->
  keeps_disk (proc_try body catches handler).
Proof.
  intros Hb Hh w. unfold proc_try. specialize (Hb w).
  destruct (body w) as [[a|s] w1]; cbn [snd] in *; [exact Hb|].
  destruct (catches s); [|exact Hb]. now rewrite Hh.
Qed.







End ProcLaws.

Lemma keeps_say (text : str) : keeps_disk (say text).
Proof. intros w. reflexivity. Qed.

Lemma keeps_input (prompt : str) : keeps_disk (input prompt).
Proof. intros w. unfold input. destruct (stdin w); reflexivity. Qed.

Lemma keeps_say_all (texts : list str) : keeps_disk (say_all texts).
Proof.
  induction texts as [|t rest IH]; [apply keeps_ret|].
  cbn [say_all]. apply keeps_bind; [apply keeps_say | intros _; exact IH].
Qed.




Ltac keeps :=
  repeat lazymatch goal with
    | |- keeps_disk (ret _) => apply keeps_ret
    | |- keeps_disk (say _) => apply keeps_say
    | |- keeps_disk (say_all _) => apply keeps_say_all
    | |- keeps_disk (input _) => apply keeps_input
    | |- keeps_disk (sys_exit _) => apply keeps_exit
    | |- keeps_disk (call _) => apply keeps_call
    | |- keeps_disk (call_io _) => apply keeps_call_io
    | |- keeps_disk (with_disk _) => apply keeps_with_disk
    | |- keeps_disk (pbind _ _) => apply keeps_bind; [|intros ?]
    | |- keeps_disk (proc_try _ _ _) => apply keeps_try; [|intros ?]
    | |- keeps_disk (if ?b then _ else _) => destruct b
    | |- keeps_disk (match ?x with _ => _ end) => destruct x
    | |- keeps_disk (let _ := _ in _) => cbv zeta
    end.


Lemma setup_git_repo_keeps_disk (m : Machine) : keeps_disk (setup_git_repo m).
Proof. unfold setup_git_repo. keeps. Qed.


Section MainLaws.

Context {urllib : Urllib} {json : Json} {rt : Runtime}.
Variable m : Machine.

Lemma main_urls_keeps_disk : keeps_disk (main_urls m).
Proof. unfold main_urls. keeps. Qed.

Lemma main_deploy_keeps_disk (title : str) : keeps_disk (main_deploy m title).
Proof.
  unfold main_deploy. keeps; try apply setup_git_repo_keeps_disk; keeps.
Qed.



End MainLaws.

(* ================================================================== *)
(** ** Runs of the script: main *)

(** X8: without git, main stops at once: it prints the banner and the
    two lines about git, exits with status 1, and has read nothing,
    written no file and asked nothing of the network. *)
Theorem main_exits_when_git_is_missing :
  forall (urllib : Urllib) (json : Json) (rt : Runtime) (m : Machine)
         (w : World),
    check_git (shell m) = Ok false ->
    main m w
    = (Signal (SystemExit 1),
       mkWorld (stdin w)
         (printed w ++ banner
            ++ [py "❌ Git no está instalado";
                py "📥 Descárgalo de: https://git-scm.com/downloads"])
         (disk w)).
Proof.
  intros urllib json rt m [inp out fs] H.
  unfold main, main_urls, banner. cbn [say_all]. run_proc.
  rewrite H. run_proc. rewrite <- !app_assoc. cbn [app]. reflexivity.
Qed.

Lemma main_exits_when_git_is_missing_witness :
  check_git (shell MainExamples.machine_without_git) = Ok false
  /\ main MainExamples.machine_without_git MainExamples.first_run
     = (Signal (SystemExit 1),
        mkWorld (stdin MainExamples.first_run)
          (printed MainExamples.first_run ++ banner
             ++ [py "❌ Git no está instalado";
                 py "📥 Descárgalo de: https://git-scm.com/downloads"])
          (disk MainExamples.first_run)).
Proof.
  assert (H : check_git (shell MainExamples.machine_without_git) = Ok false)
    by reflexivity.
  refine (conj H _).
  exact (main_exits_when_git_is_missing python_urllib json_model
           example_runtime MainExamples.machine_without_git
           MainExamples.first_run H).
Defined.

Section MainFacts.

Context {urllib : Urllib} {json : Json} {rt : Runtime}.

Lemma leave_unless (ok : bool) (text : str) (w w' : World) :
  (if negb ok then pbind (say text) (fun _ => sys_exit 1) else ret tt) w
  = (Return tt, w') ->
  ok = true /\ w' = w.
Proof.
  destruct ok; cbn [negb]; run_proc.
  - intros H. injection H as <-. now split.
  - discriminate.
Qed.

Lemma call_returns {A} (r : result A) (a : A) (w w' : World) :
  call r w = (Return a, w') -> r = Ok a /\ w' = w.
Proof.
  unfold call. destruct r; [|discriminate].
  intros H. injection H as <- <-. now split.
Qed.

(** The URLs main goes on with have passed the validation. *)
Lemma main_urls_validated (m : Machine) (w w' : World)
    (visible hidden : str) :
  main_urls m w = (Return (visible, hidden), w') ->
  is_http visible = true /\ is_http hidden = true.
Proof.
  unfold main_urls. intros H.
  apply pbind_returns in H. destruct H as (? & ? & _ & H).
  apply pbind_returns in H. destruct H as (? & ? & _ & H).
  apply pbind_returns in H. destruct H as (? & ? & _ & H).
  apply pbind_returns in H. destruct H as (? & ? & _ & H).
  apply pbind_returns in H. destruct H as (urls & ? & _ & H).
  cbv zeta in H.
  apply pbind_returns in H. destruct H as (? & ? & _ & H).
  apply pbind_returns in H. destruct H as (ok1 & ? & H1 & H).
  apply pbind_returns in H. destruct H as ([] & ? & H2 & H).
  apply pbind_returns in H. destruct H as (ok2 & ? & H3 & H).
  apply pbind_returns in H. destruct H as ([] & ? & H4 & H).
  apply leave_unless in H2. destruct H2 as [-> ->].
  apply leave_unless in H4. destruct H4 as [-> ->].
  apply call_returns in H1. destruct H1 as [H1 ->].
  apply call_returns in H3. destruct H3 as [H3 ->].
  unfold ret in H. injection H as <- <- _.
  destruct urls as [v h]. cbn [fst snd] in *.
  unfold py_is_http in H1, H3.
  destruct v; try discriminate. destruct h; try discriminate.
  injection H1 as H1. injection H3 as H3. now split.
Qed.

Lemma extract_depends_on_one_answer (net net' : Network) (url : str) :
  net url = net' url -> extract net url = extract net' url.
Proof. intros H. now rewrite !extract_steps, H. Qed.

End MainFacts.

(** X9: main asks the network only for a visible URL that starts with
    http:// or https://: two networks that answer alike on such URLs
    give the same run, whatever they answer elsewhere. *)
Theorem main_fetches_only_http_urls :
  forall (urllib : Urllib) (json : Json) (rt : Runtime)
         (net net' : Network) (sh : Shell) (we : str -> option pyexc)
         (w : World),
    (forall url, is_http url = true -> net url = net' url) ->
    main (mkMachine net sh we) w = main (mkMachine net' sh we) w.
Proof.
  intros urllib json rt net net' sh we w Hnet.
  unfold main.
  change (main_urls (mkMachine net' sh we))
    with (main_urls (mkMachine net sh we)).
  apply pbind_agrees. intros [v h] w1 E.
  destruct (main_urls_validated _ _ _ _ _ E) as [Hv _].
  cbv zeta. cbn [fst snd].
  change (main_deploy (mkMachine net' sh we))
    with (main_deploy (mkMachine net sh we)).
  replace (main_generate (mkMachine net' sh we) v h)
    with (main_generate (mkMachine net sh we) v h); [reflexivity|].
  unfold main_generate. cbn [network].
  now rewrite (extract_depends_on_one_answer net net' v (Hnet v Hv)).
Qed.

Lemma main_fetches_only_http_urls_witness :
  (forall url, is_http url = true ->
     serve SiteExample.response url
     = (fun u => if is_http u then serve SiteExample.response u
                 else Raise FailureExamples.timeout_error) url)
  /\ main (mkMachine (serve SiteExample.response)
             DeployExamples.changed_tree (fun _ => None))
       MainExamples.first_run
     = main (mkMachine
               (fun u => if is_http u then serve SiteExample.response u
                         else Raise FailureExamples.timeout_error)
               DeployExamples.changed_tree (fun _ => None))
         MainExamples.first_run.
Proof.
  assert (H : forall url, is_http url = true ->
     serve SiteExample.response url
     = (fun u => if is_http u then serve SiteExample.response u
                 else Raise FailureExamples.timeout_error) url)
    by (intros url Hu; cbv beta; rewrite Hu; reflexivity).
  refine (conj H _).
  exact (main_fetches_only_http_urls python_urllib json_model example_runtime
           _ _ DeployExamples.changed_tree (fun _ => None)
           MainExamples.first_run H).
Defined.

Section MainRuns.

Context {urllib : Urllib} {json : Json} {rt : Runtime}.
Variable m : Machine.

Lemma pbind_step {A B} (p : Proc A) (k : A -> Proc B) (w w1 : World) (a : A) :
  p w = (Return a, w1) -> pbind p k w = k a w1.
Proof. intros H. unfold pbind. now rewrite H. Qed.

Lemma try_disk {A} (body : Proc A) (catches : signal -> bool)
    (handler : signal -> Proc A) (w : World) :
  (forall s, keeps_disk (handler s)) ->
  disk (snd (proc_try body catches handler w)) = disk (snd (body w)).
Proof.
  intros Hh. unfold proc_try. destruct (body w) as [[a|s] w1];
    [reflexivity|].
  destruct (catches s); [|reflexivity]. cbn [snd]. apply Hh.
Qed.

Lemma main_handler_keeps_disk (s : signal) :
  keeps_disk
    (pbind (say (nl ++ py "❌ Error: " ++ signal_str s))
       (fun _ => @sys_exit unit 1)).
Proof. keeps. Qed.

(** What [main] does once the URLs are chosen. *)
Lemma main_after_urls (w w1 : World) (visible hidden : str) :
  main_urls m w = (Return (visible, hidden), w1) ->
  main m w
  = proc_try
      (pbind (main_generate m visible hidden) (main_deploy m))
      catch_Exception
      (fun e =>
         pbind (say (nl ++ py "❌ Error: " ++ signal_str e))
           (fun _ => sys_exit 1))
      (mkWorld (stdin w1)
         (printed w1 ++ [nl ++ py "⏳ Extrayendo metadata..."]) (disk w1)).
Proof.
  intros H. unfold main. rewrite (pbind_step _ _ _ _ _ H).
  cbv zeta. cbn [fst snd]. reflexivity.
Qed.

(** The page and the configuration are written, in this order. *)
Lemma main_generate_writes (w : World) (visible hidden title desc img : str) :
  extract (network m) visible = Ok (title, desc, img) ->
  write_error m (py "index.html") = None ->
  write_error m config_path = None ->
  exists out,
    main_generate m visible hidden w
    = (Return title,
       mkWorld (stdin w) out
         (write_file config_path (json_dump (config_of visible hidden))
            (write_file (py "index.html")
               (generate_html visible hidden title desc img) (disk w)))).
Proof.
  intros He Hi Hc. destruct w as [inp out fs].
  unfold main_generate, save_config. run_proc.
  rewrite He, Hi, Hc. run_proc. eexists. reflexivity.
Qed.

End MainRuns.

(** X10: when the extraction fails, main prints the error and exits
    with status 1; no file has been written and nothing more is read
    or asked. *)
Theorem main_stops_when_extraction_fails :
  forall (urllib : Urllib) (json : Json) (rt : Runtime) (m : Machine)
         (w w1 : World) (visible hidden : str) (e : pyexc),
    main_urls m w = (Return (visible, hidden), w1) ->
    extract (network m) visible = Raise e ->
    main m w
    = (Signal (SystemExit 1),
       mkWorld (stdin w1)
         (printed w1 ++ [nl ++ py "⏳ Extrayendo metadata...";
                         nl ++ py "❌ Error: " ++ exc_str e])
         (disk w)).
Proof.
  intros urllib json rt m w w1 v h e Hu He.
  rewrite (main_after_urls m _ _ _ _ Hu).
  rewrite <- (main_urls_keeps_disk m w), Hu. cbn [snd].
  unfold main_generate. run_proc. rewrite He. run_proc.
  cbn [signal_str]. rewrite <- !app_assoc. cbn [app]. reflexivity.
Qed.

(** X11: when the extraction succeeds and both files can be written,
    then, whatever is answered in the deployment part, at the end of
    main the file written as index.html holds the page generated from
    the two URLs and the extracted metadata, and the file written as
    .link_config.json holds the JSON text of the two URLs. *)
Theorem main_writes_page_and_configuration :
  forall (urllib : Urllib) (json : Json) (rt : Runtime) (m : Machine)
         (w w1 : World) (visible hidden title desc img : str),
    main_urls m w = (Return (visible, hidden), w1) ->
    extract (network m) visible = Ok (title, desc, img) ->
    write_error m (py "index.html") = None ->
    write_error m config_path = None ->
    read_text (disk (snd (main m w))) (py "index.html")
      = Ok (generate_html visible hidden title desc img)
    /\ read_text (disk (snd (main m w))) config_path
       = Ok (json_dump (config_of visible hidden)).
Proof.
  intros urllib json rt m w w1 v h t d i Hu He Hi Hc.
  rewrite (main_after_urls m _ _ _ _ Hu).
  rewrite try_disk by apply main_handler_keeps_disk.
  destruct (main_generate_writes m
              (mkWorld (stdin w1)
                 (printed w1 ++ [nl ++ py "⏳ Extrayendo metadata..."])
                 (disk w1)) v h t d i He Hi Hc) as (out & Hg).
  rewrite (pbind_step _ _ _ _ _ Hg), (main_deploy_keeps_disk m t _).
  cbn [disk]. unfold write_file. cbn [read_text path_exists].
  destruct config_path_is_not_index as [H1 H2].
  rewrite H2, !str_eqb_refl. split; reflexivity.
Qed.

Lemma main_stops_when_extraction_fails_witness :
  main_urls MainExamples.machine_offline MainExamples.first_run
    = (Return (MainExamples.visible, MainExamples.hidden),
       MainExamples.urls_read)
  /\ extract (network MainExamples.machine_offline) MainExamples.visible
     = Raise (wrap FailureExamples.not_found_error)
  /\ main MainExamples.machine_offline MainExamples.first_run
     = (Signal (SystemExit 1),
        mkWorld (stdin MainExamples.urls_read)
          (printed MainExamples.urls_read
             ++ [nl ++ py "⏳ Extrayendo metadata...";
                 nl ++ py "❌ Error: "
                    ++ exc_str (wrap FailureExamples.not_found_error)])
          (disk MainExamples.first_run)).
Proof.
  assert (H1 : main_urls MainExamples.machine_offline MainExamples.first_run
               = (Return (MainExamples.visible, MainExamples.hidden),
                  MainExamples.urls_read)) by (vm_compute; reflexivity).
  assert (H2 : extract (network MainExamples.machine_offline)
                 MainExamples.visible
               = Raise (wrap FailureExamples.not_found_error))
    by (vm_compute; reflexivity).
  refine (conj H1 (conj H2 _)).
  exact (main_stops_when_extraction_fails python_urllib json_model
           example_runtime MainExamples.machine_offline
           MainExamples.first_run MainExamples.urls_read
           MainExamples.visible MainExamples.hidden
           (wrap FailureExamples.not_found_error) H1 H2).
Defined.

Lemma main_writes_page_and_configuration_witness :
  main_urls MainExamples.machine MainExamples.first_run
    = (Return (MainExamples.visible, MainExamples.hidden),
       MainExamples.urls_read)
  /\ extract (network MainExamples.machine) MainExamples.visible
     = Ok (py "Hello", py "World", py "https://site.test/pic.png")
  /\ write_error MainExamples.machine (py "index.html") = None
  /\ write_error MainExamples.machine config_path = None
  /\ read_text (disk (snd (main MainExamples.machine
                             MainExamples.first_run))) (py "index.html")
     = Ok (generate_html MainExamples.visible MainExamples.hidden
             (py "Hello") (py "World") (py "https://site.test/pic.png")).
Proof.
  assert (H1 : main_urls MainExamples.machine MainExamples.first_run
               = (Return (MainExamples.visible, MainExamples.hidden),
                  MainExamples.urls_read)) by (vm_compute; reflexivity).
  assert (H2 : extract (network MainExamples.machine) MainExamples.visible
               = Ok (py "Hello", py "World", py "https://site.test/pic.png"))
    by (vm_compute; reflexivity).
  assert (H3 : write_error MainExamples.machine (py "index.html") = None)
    by reflexivity.
  assert (H4 : write_error MainExamples.machine config_path = None)
    by reflexivity.
  refine (conj H1 (conj H2 (conj H3 (conj H4 _)))).
  exact (proj1 (main_writes_page_and_configuration python_urllib json_model
                  example_runtime MainExamples.machine
                  MainExamples.first_run MainExamples.urls_read
                  MainExamples.visible MainExamples.hidden
                  (py "Hello") (py "World") (py "https://site.test/pic.png")
                  H1 H2 H3 H4)).
Defined.



(* ================================================================== *)
(** ** Runs of the script: the saved configuration *)

Lemma is_http_truthy (s : str) : is_http s = true -> Str.truthy s = true.
Proof. destruct s; [vm_compute; discriminate | reflexivity]. Qed.

Lemma saved_keys_differ :
  Str.eqb (py "last_visible_url") (py "last_redirect_url") = false.
Proof. vm_compute. reflexivity. Qed.

(** X13: a later run offers the saved pair and, when the user answers
    s, goes on with exactly the two saved URLs without asking for any:
    one line is read, nothing is written. *)
Theorem main_reuses_the_saved_urls :
  forall (json : Json) (rt : Runtime) (m : Machine) (w : World)
         (visible hidden line : str) (rest : list str),
    check_git (shell m) = Ok true ->
    load_config (disk w) = Ok (config_of visible hidden) ->
    stdin w = line :: rest ->
    str_lower (Str.strip line) = py "s" ->
    is_http visible = true ->
    is_http hidden = true ->
    main_urls m w
    = (Return (visible, hidden),
       mkWorld rest
         (printed w ++ banner
            ++ [py "📋 Última configuración:";
                py "   Visible: " ++ visible;
                py "   Oculto:  " ++ hidden;
                nl ++ py "¿Usar estas URLs? (s/n): "])
         (disk w)).
Proof.
  intros json rt m [inp out fs] v h line rest Hgit Hload Hin Hs Hv Hh.
  cbn [stdin disk printed] in *. subst inp.
  unfold main_urls, banner. cbn [say_all]. run_proc.
  rewrite Hgit. run_proc. rewrite Hload. run_proc.
  unfold config_of, dict_get, dict_getitem.
  cbn [py_truthy dict_lookup py_format]. run_proc.
  rewrite Hs, !str_eqb_refl, saved_keys_differ. run_proc.
  cbn [py_truthy py_is_http as_str].
  rewrite (is_http_truthy _ Hv), (is_http_truthy _ Hh). cbn [negb orb].
  run_proc. rewrite Hv, Hh. run_proc.
  rewrite <- !app_assoc. cbn [app]. reflexivity.
Qed.

Lemma main_reuses_the_saved_urls_witness :
  check_git (shell MainExamples.machine) = Ok true
  /\ load_config (disk MainExamples.second_run)
     = Ok (config_of MainExamples.visible MainExamples.hidden)
  /\ stdin MainExamples.second_run = py "S" :: [py "2"]
  /\ str_lower (Str.strip (py "S")) = py "s"
  /\ is_http MainExamples.visible = true
  /\ is_http MainExamples.hidden = true
  /\ main_urls MainExamples.machine MainExamples.second_run
     = (Return (MainExamples.visible, MainExamples.hidden),
        mkWorld [py "2"]
          (printed MainExamples.second_run ++ banner
             ++ [py "📋 Última configuración:";
                 py "   Visible: " ++ MainExamples.visible;
                 py "   Oculto:  " ++ MainExamples.hidden;
                 nl ++ py "¿Usar estas URLs? (s/n): "])
          (disk MainExamples.second_run)).
Proof.
  assert (H1 : check_git (shell MainExamples.machine) = Ok true)
    by reflexivity.
  assert (H2 : load_config (disk MainExamples.second_run)
               = Ok (config_of MainExamples.visible MainExamples.hidden))
    by (vm_compute; reflexivity).
  assert (H3 : stdin MainExamples.second_run = py "S" :: [py "2"])
    by reflexivity.
  assert (H4 : str_lower (Str.strip (py "S")) = py "s") by reflexivity.
  assert (H5 : is_http MainExamples.visible = true) by reflexivity.
  assert (H6 : is_http MainExamples.hidden = true) by reflexivity.
  refine (conj H1 (conj H2 (conj H3 (conj H4 (conj H5 (conj H6 _)))))).
  exact (main_reuses_the_saved_urls json_model example_runtime
           MainExamples.machine MainExamples.second_run
           MainExamples.visible MainExamples.hidden (py "S") [py "2"]
           H1 H2 H3 H4 H5 H6).
Defined.

(** X14: a saved configuration that is a non-empty object without the
    key last_visible_url makes main end in an uncaught KeyError when
    the user accepts it: the lookup of line 296 is outside the try
    block, so the error is not turned into the exit with status 1. *)
Theorem main_raises_key_error_on_foreign_configuration :
  forall (urllib : Urllib) (json : Json) (rt : Runtime) (m : Machine)
         (w : World) (items : list (str * pyval)) (line : str)
         (rest : list str),
    check_git (shell m) = Ok true ->
    load_config (disk w) = Ok (PyDict items) ->
    items <> [] ->
    dict_lookup (py "last_visible_url") items = None ->
    stdin w = line :: rest ->
    str_lower (Str.strip line) = py "s" ->
    fst (main m w)
    = Signal (Exc (PyExc KeyError (py "'last_visible_url'") None)).
Proof.
  intros urllib json rt m [inp out fs] items line rest
    Hgit Hload Hne Hkey Hin Hs.
  cbn [stdin disk printed] in *. subst inp.
  unfold main, main_urls, banner. cbn [say_all]. run_proc.
  rewrite Hgit. run_proc. rewrite Hload. run_proc.
  destruct items as [|item items']; [contradiction|].
  cbn [py_truthy]. run_proc.
  rewrite Hs, str_eqb_refl. unfold dict_getitem. rewrite Hkey.
  run_proc. reflexivity.
Qed.

Lemma main_raises_key_error_on_foreign_configuration_witness :
  check_git (shell MainExamples.machine) = Ok true
  /\ load_config (disk MainExamples.foreign_run)
     = Ok (PyDict MainExamples.foreign_config)
  /\ MainExamples.foreign_config <> []
  /\ dict_lookup (py "last_visible_url") MainExamples.foreign_config = None
  /\ stdin MainExamples.foreign_run = py "s" :: []
  /\ str_lower (Str.strip (py "s")) = py "s"
  /\ fst (main MainExamples.machine MainExamples.foreign_run)
     = Signal (Exc (PyExc KeyError (py "'last_visible_url'") None)).
Proof.
  assert (H1 : check_git (shell MainExamples.machine) = Ok true)
    by reflexivity.
  assert (H2 : load_config (disk MainExamples.foreign_run)
               = Ok (PyDict MainExamples.foreign_config))
    by (vm_compute; reflexivity).
  assert (H3 : MainExamples.foreign_config <> []) by discriminate.
  assert (H4 : dict_lookup (py "last_visible_url")
                 MainExamples.foreign_config = None)
    by (vm_compute; reflexivity).
  assert (H5 : stdin MainExamples.foreign_run = py "s" :: [])
    by reflexivity.
  assert (H6 : str_lower (Str.strip (py "s")) = py "s") by reflexivity.
  refine (conj H1 (conj H2 (conj H3 (conj H4 (conj H5 (conj H6 _)))))).
  exact (main_raises_key_error_on_foreign_configuration python_urllib
           json_model example_runtime MainExamples.machine
           MainExamples.foreign_run MainExamples.foreign_config (py "s") []
           H1 H2 H3 H4 H5 H6).
Defined.

(* ================================================================== *)
(** ** Runs of the script: the deployment *)

(** X15: only the answer 1 deploys.  In a git repository, any other
    answer to the deployment question makes the script print the four
    lines of manual instructions and return; git add, commit and push
    are not consulted and no further line is read. *)
Theorem main_deploys_only_on_answer_1 :
  forall (m : Machine) (rt : Runtime) (title : str) (w : World)
         (line : str) (rest : list str),
    is_git_repo (shell m) = Ok true ->
    stdin w = line :: rest ->
    Str.strip line <> py "1" ->
    main_deploy m title w
    = (Return tt,
       mkWorld rest
         (printed w
            ++ [nl ++ py "🚀 OPCIONES DE DESPLIEGUE:";
                py "   1. Push automático a GitHub (Netlify desplegará solo)";
                py "   2. Solo generar archivo (push manual después)";
                nl ++ py "Elige una opción (1/2): ";
                nl ++ py "✅ Archivo generado. Para subirlo manualmente ejecuta:";
                py "   git add index.html";
                py "   git commit -m 'Actualizar link'";
                py "   git push"])
         (disk w)).
Proof.
  intros m rt title [inp out fs] line rest Hrepo Hin Hne.
  cbn [stdin disk printed] in *. subst inp.
  unfold main_deploy. run_proc. rewrite Hrepo. run_proc.
  destruct (Str.eqb (Str.strip line) (py "1")) eqn:E;
    [apply str_eqb_eq in E; contradiction|].
  run_proc. rewrite <- !app_assoc. cbn [app]. reflexivity.
Qed.

Lemma main_deploys_only_on_answer_1_witness :
  is_git_repo (shell MainExamples.machine) = Ok true
  /\ stdin MainExamples.second_run = py "S" :: [py "2"]
  /\ Str.strip (py "S") <> py "1"
  /\ main_deploy MainExamples.machine (py "Hello") MainExamples.second_run
     = (Return tt,
        mkWorld [py "2"]
          (printed MainExamples.second_run
             ++ [nl ++ py "🚀 OPCIONES DE DESPLIEGUE:";
                 py "   1. Push automático a GitHub (Netlify desplegará solo)";
                 py "   2. Solo generar archivo (push manual después)";
                 nl ++ py "Elige una opción (1/2): ";
                 nl ++ py "✅ Archivo generado. Para subirlo manualmente ejecuta:";
                 py "   git add index.html";
                 py "   git commit -m 'Actualizar link'";
                 py "   git push"])
          (disk MainExamples.second_run)).
Proof.
  assert (H1 : is_git_repo (shell MainExamples.machine) = Ok true)
    by reflexivity.
  assert (H2 : stdin MainExamples.second_run = py "S" :: [py "2"])
    by reflexivity.
  assert (H3 : Str.strip (py "S") <> py "1") by (vm_compute; discriminate).
  refine (conj H1 (conj H2 (conj H3 _))).
  exact (main_deploys_only_on_answer_1 MainExamples.machine example_runtime
           (py "Hello") MainExamples.second_run (py "S") [py "2"] H1 H2 H3).
Defined.
